(** * Restaurant-Pizza API: the request handlers of [server/app.py]

    A shallow embedding of the Flask handlers and of the store they run
    against, followed by the properties of the handlers.

    - JSON values, responses and Python exceptions are inductive types.
    - The relational store is a record of three tables, each a list of rows in
      the order [query.all()] returns them.
    - [db.session] is state passed through a small state-and-exception monad:
      a session holds the committed store and the changes not yet committed.
    - A failure of the store at [db.session.commit()] is an input of the
      handler ([fault]): [None] when the commit goes through, [Some e] when
      it raises [e]. So is a failure while the created association is
      serialized after the commit ([serialize_fault]).
    - Primary keys are 64-bit integers, as in the SQLite store the
      application configures by default: a lookup by a key beyond 64 bits
      raises [OverflowError]. *)

From Stdlib Require Import ZArith String List Lia.
From stdpp Require Import base option list gmap strings.

Local Open Scope Z_scope.
Local Set Warnings "-register-all".

(** ** JSON values and responses

    The members of a [JObj] are listed in the order the handlers and
    serializers build them. *)

Inductive json : Type :=
| JNull
| JInt (n : Z)
| JStr (s : string)
| JArr (items : list json)
| JObj (members : list (string * json)).

(** A response body is either JSON ([jsonify(...)]) or plain text (the [""]
    of the 204 response). *)
Inductive payload : Type :=
| Json (j : json)
| Text (s : string).

Definition jsonify (j : json) : payload := Json j.

Record response : Type := make_response { body : payload; status_code : Z }.

(** The keys of a JSON object body; no keys for any other body. *)
Definition body_keys (r : response) : list string :=
  match body r with
  | Json (JObj members) => map fst members
  | _ => []
  end.

Definition has_key (k : string) (r : response) : bool :=
  existsb (String.eqb k) (body_keys r).

(** ** Python exceptions

    The classes the handlers tell apart and the ones the handlers are seen
    to raise; [OtherException] stands for any other subclass of [Exception].
    [str] is Python's [str(e)]. *)

Inductive exn : Type :=
| AttributeError (msg : string)
| ValueError (msg : string)
| IntegrityError (msg : string)
| OverflowError (msg : string)
| OtherException (msg : string).

Definition str (e : exn) : string :=
  match e with
  | AttributeError msg | ValueError msg | IntegrityError msg
  | OverflowError msg | OtherException msg => msg
  end.

(** ** Helper functions for responses ([make_error_response],
    [make_validation_error_response]) *)

Definition make_error_response (message : string) (code : Z) : response :=
  make_response (jsonify (JObj [("error"%string, JStr message)])) code.

Definition make_validation_error_response (errors : list string) (code : Z) : response :=
  make_response (jsonify (JObj [("errors"%string, JArr (map JStr errors))])) code.

(** ** The data model

    [models.py] is not among the sources; the three entities follow the
    specification's data model. *)

Module Restaurant.
(** Modelled from the spec: the Restaurant entity of [models.py]: id
    (integer, generated, unique), name (string, required), address
    (string, optional). *)
Record t : Type := mk { id : Z; name : string; address : option string }.

(** Modelled from the spec: [to_dict(rules=('-restaurant_pizzas',))] of
    [models.py]'s serializer: the association collection is excluded, which
    leaves id, name and address. *)
Definition to_dict (r : t) : json :=
  JObj [("id"%string, JInt (id r));
        ("name"%string, JStr (name r));
        ("address"%string, from_option JStr JNull (address r))].
End Restaurant.

Module Pizza.
(** Modelled from the spec: the Pizza entity of [models.py]: id (integer,
    generated, unique), name (string, required), ingredients (string,
    required). *)
Record t : Type := mk { id : Z; name : string; ingredients : string }.

(** Modelled from the spec: [to_dict(rules=('-restaurant_pizzas',))]: id,
    name and ingredients only. *)
Definition to_dict (p : t) : json :=
  JObj [("id"%string, JInt (id p));
        ("name"%string, JStr (name p));
        ("ingredients"%string, JStr (ingredients p))].
End Pizza.

Module RestaurantPizza.
(** Modelled from the spec: the RestaurantPizza entity of [models.py]: id
    (integer, generated), price, restaurant_id and pizza_id. As in the ORM,
    the [id] of an object is [None] until the store has generated it. *)
Record t : Type :=
  mk { id : option Z; price : Z; restaurant_id : Z; pizza_id : Z }.

Definition with_id (k : option Z) (rp : t) : t :=
  mk k (price rp) (restaurant_id rp) (pizza_id rp).

(** Modelled from the spec: the [@validates] rule of [models.py] on price:
    1 <= price <= 30, a violation raising [ValueError]. The text of the
    message is in [models.py]; it is the parameter [price_error]. *)
Definition validate_price (price_error : string) (price : Z) : exn + Z :=
  if bool_decide (1 ≤ price ≤ 30) then inr price else inl (ValueError price_error).

(** [RestaurantPizza(price=..., pizza_id=..., restaurant_id=...)]: the
    validator runs when the attribute is set. *)
Definition new (price_error : string) (price pizza_id restaurant_id : Z) : exn + t :=
  match validate_price price_error price with
  | inr price => inr (mk None price restaurant_id pizza_id)
  | inl e => inl e
  end.
End RestaurantPizza.

(** ** The store *)

Record Store : Type := mkStore {
  restaurants : list Restaurant.t;
  pizzas : list Pizza.t;
  restaurant_pizzas : list RestaurantPizza.t
}.

(** The primary keys of the store are signed 64-bit integers. *)
Definition in_int64 (i : Z) : bool :=
  (-9223372036854775808 <=? i) && (i <? 9223372036854775808).
Global Arguments in_int64 : simpl never.

(** The row with a given primary key, if any. A key beyond 64 bits is the key
    of no row. *)
Definition find_restaurant (st : Store) (i : Z) : option Restaurant.t :=
  if in_int64 i then find (λ r, bool_decide (Restaurant.id r = i)) (restaurants st)
  else None.

Definition find_pizza (st : Store) (i : Z) : option Pizza.t :=
  if in_int64 i then find (λ p, bool_decide (Pizza.id p = i)) (pizzas st)
  else None.

(** The relationship [restaurant.restaurant_pizzas]: the associations whose
    foreign key is the restaurant's id. *)
Definition owned (st : Store) (i : Z) : list RestaurantPizza.t :=
  filter (λ rp, RestaurantPizza.restaurant_id rp = i) (restaurant_pizzas st).

(** Modelled from the spec: the key the store generates for a new
    association row (id: integer, generated, unique): one more than the
    largest key in the table. *)
Definition next_id (rows : list RestaurantPizza.t) : Z :=
  1 + foldr Z.max 0 (omap RestaurantPizza.id rows).

(** Modelled from the spec: deleting a Restaurant deletes its row and all its
    RestaurantPizza rows (the cascade declared on the relationship in
    [models.py]). *)
Definition delete_restaurant (i : Z) (st : Store) : Store :=
  mkStore (filter (λ r, Restaurant.id r ≠ i) (restaurants st))
          (pizzas st)
          (filter (λ rp, RestaurantPizza.restaurant_id rp ≠ i) (restaurant_pizzas st)).

Definition insert_restaurant_pizza (k : Z) (rp : RestaurantPizza.t) (st : Store) : Store :=
  mkStore (restaurants st) (pizzas st)
          (restaurant_pizzas st ++ [RestaurantPizza.with_id (Some k) rp]).

(** Every association row points at an existing restaurant and an existing
    pizza (the two foreign keys of the data model). *)
Definition referential_integrity (st : Store) : bool :=
  forallb (λ rp, bool_decide (is_Some (find_restaurant st (RestaurantPizza.restaurant_id rp)))
                 && bool_decide (is_Some (find_pizza st (RestaurantPizza.pizza_id rp))))
          (restaurant_pizzas st).

(** ** The session ([db.session]) *)

Inductive change : Type :=
| Insert (rp : RestaurantPizza.t)     (* db.session.add(rp) *)
| Delete (r : Restaurant.t).          (* db.session.delete(r) *)

(** [db] is the committed store, [pending] the changes of the open
    transaction, [lastrowid] the key generated by the last flushed insert
    (which the ORM writes back into the added object). *)
Record Session : Type := mkSession {
  db : Store;
  pending : list change;
  lastrowid : option Z
}.

(** A request starts on a session with nothing pending. *)
Definition new_session (st : Store) : Session := mkSession st [] None.

Definition flush_change (acc : Store * option Z) (c : change) : Store * option Z :=
  match c with
  | Insert rp =>
      let k := next_id (restaurant_pizzas acc.1) in
      (insert_restaurant_pizza k rp acc.1, Some k)
  | Delete r => (delete_restaurant (Restaurant.id r) acc.1, acc.2)
  end.

Definition flush (cs : list change) (st : Store) (k : option Z) : Store * option Z :=
  foldl flush_change (st, k) cs.

(** ** The monad of handlers: session state and exceptions *)

Definition M (A : Type) : Type := Session → (exn + A) * Session.

Definition ret {A} (a : A) : M A := λ s, (inr a, s).

Definition raise {A} (e : exn) : M A := λ s, (inl e, s).

Definition bind {A B} (m : M A) (k : A → M B) : M B :=
  λ s, match m s with
       | (inr a, s') => k a s'
       | (inl e, s') => (inl e, s')
       end.

(** [try: m except e: h e]. *)
Definition try_except {A} (m : M A) (h : exn → M A) : M A :=
  λ s, match m s with
       | (inl e, s') => h e s'
       | r => r
       end.

Definition lift {A} (r : exn + A) : M A :=
  match r with
  | inr a => ret a
  | inl e => raise e
  end.

Notation "'let!' x ':=' m 'in' k" := (bind m (λ x, k))
  (at level 10, x name, m at level 100, k at level 200).
Notation "'do!' m 'in' k" := (bind m (λ _, k))
  (at level 10, m at level 100, k at level 200).

Fixpoint for_each {A B} (f : A → M B) (xs : list A) : M (list B) :=
  match xs with
  | [] => ret []
  | x :: xs' =>
      let! y := f x in
      let! ys := for_each f xs' in
      ret (y :: ys)
  end.

(** Reads. *)
Definition Restaurant_query_all : M (list Restaurant.t) := λ s, (inr (restaurants (db s)), s).
Definition Pizza_query_all : M (list Pizza.t) := λ s, (inr (pizzas (db s)), s).
(** [Model.query.get(i)]: the key is bound as a parameter of the query, and
    binding an integer beyond 64 bits raises [OverflowError]; otherwise the
    row with that key or [None]. *)
Definition int_too_large : string := "Python int too large to convert to SQLite INTEGER".
Definition Restaurant_query_get (i : Z) : M (option Restaurant.t) :=
  λ s, if in_int64 i then (inr (find_restaurant (db s) i), s)
       else (inl (OverflowError int_too_large), s).
Definition Pizza_query_get (i : Z) : M (option Pizza.t) :=
  λ s, if in_int64 i then (inr (find_pizza (db s) i), s)
       else (inl (OverflowError int_too_large), s).
(** [restaurant.restaurant_pizzas] and [rp.pizza], loaded through the
    relationships. *)
Definition Restaurant_restaurant_pizzas (r : Restaurant.t) : M (list RestaurantPizza.t) :=
  λ s, (inr (owned (db s) (Restaurant.id r)), s).
Definition RestaurantPizza_pizza (rp : RestaurantPizza.t) : M (option Pizza.t) :=
  λ s, (inr (find_pizza (db s) (RestaurantPizza.pizza_id rp)), s).
Definition RestaurantPizza_restaurant (rp : RestaurantPizza.t) : M (option Restaurant.t) :=
  λ s, (inr (find_restaurant (db s) (RestaurantPizza.restaurant_id rp)), s).

(** Writes. *)
Definition db_session_add (rp : RestaurantPizza.t) : M unit :=
  λ s, (inr (), mkSession (db s) (pending s ++ [Insert rp]) (lastrowid s)).

Definition db_session_delete (r : Restaurant.t) : M unit :=
  λ s, (inr (), mkSession (db s) (pending s ++ [Delete r]) (lastrowid s)).

(** [db.session.commit()]: when the store fails, the exception is raised and
    nothing is committed; otherwise the pending changes are flushed and
    become the committed store. *)
Definition db_session_commit (fault : option exn) : M unit :=
  λ s, match fault with
       | Some e => (inl e, s)
       | None =>
           let '(st, k) := flush (pending s) (db s) (lastrowid s) in
           (inr (), mkSession st [] k)
       end.

(** [db.session.rollback()]: the pending changes are dropped. *)
Definition db_session_rollback : M unit :=
  λ s, (inr (), mkSession (db s) [] (lastrowid s)).

(** The state of an added object once it is flushed: it carries the key the
    store generated. *)
Definition persisted (rp : RestaurantPizza.t) : M RestaurantPizza.t :=
  λ s, (inr (RestaurantPizza.with_id (lastrowid s) rp), s).

(** Modelled from the spec: [to_dict()] of a RestaurantPizza under the
    serialize rules of [models.py]: id, price, restaurant_id, pizza_id and
    the nested restaurant and pizza, neither with its association list. *)
Definition RestaurantPizza_to_dict (rp : RestaurantPizza.t) : M json :=
  let! restaurant := RestaurantPizza_restaurant rp in
  let! pizza := RestaurantPizza_pizza rp in
  ret (JObj [("id"%string, from_option JInt JNull (RestaurantPizza.id rp));
             ("price"%string, JInt (RestaurantPizza.price rp));
             ("restaurant_id"%string, JInt (RestaurantPizza.restaurant_id rp));
             ("pizza_id"%string, JInt (RestaurantPizza.pizza_id rp));
             ("restaurant"%string, from_option Restaurant.to_dict JNull restaurant);
             ("pizza"%string, from_option Pizza.to_dict JNull pizza)]).

(** [new_rp.to_dict()] and [jsonify] after the commit: the object was
    expired by the commit and is read back from the store, which can fail
    ([serialize_fault]). *)
Definition serialize (serialize_fault : option exn) (rp : RestaurantPizza.t) : M json :=
  match serialize_fault with
  | Some e => raise e
  | None => RestaurantPizza_to_dict rp
  end.

(** ** Request bodies

    [request.get_json()] yields the parsed body. The body of a
    [POST /restaurant_pizzas] request is a JSON object whose members are
    integers or null, as the request contract has them; a client can also
    send JSON that is not an object. Objects with members of another type
    (strings, floats, arrays, objects) and bodies [get_json] itself rejects
    are outside the model: nothing below speaks of them. *)

Inductive request_json : Type :=
| ReqObject (d : gmap string (option Z))
| ReqArray (items : list (option Z))
| ReqString (s : string)
| ReqNumber (n : Z)
| ReqBool (b : bool)
| ReqNull.

Definition type_name (data : request_json) : string :=
  match data with
  | ReqObject _ => "dict"
  | ReqArray _ => "list"
  | ReqString _ => "str"
  | ReqNumber _ => "int"
  | ReqBool _ => "bool"
  | ReqNull => "NoneType"
  end.

(** [d.get(k)] on a dict: [None] for a missing key and for a null value. *)
Definition dict_get (d : gmap string (option Z)) (k : string) : option Z :=
  default None (d !! k).

(** [data.get(k)]: only a dict has the method. *)
Definition data_get (data : request_json) (k : string) : M (option Z) :=
  match data with
  | ReqObject d => ret (dict_get d k)
  | _ => raise (AttributeError ("'" +:+ type_name data +:+ "' object has no attribute 'get'"))
  end.

(** ** The resources *)

Module Restaurants.
(** [GET /restaurants] *)
Definition get : M response :=
  let! restaurants := Restaurant_query_all in
  let serialized_restaurants := map Restaurant.to_dict restaurants in
  ret (make_response (jsonify (JArr serialized_restaurants)) 200).
End Restaurants.

Module RestaurantByID.
(** One entry of [pizzas_data]; [rp.pizza.id] raises when [rp.pizza] is
    [None]. *)
Definition pizza_entry (rp : RestaurantPizza.t) : M json :=
  let! pizza := RestaurantPizza_pizza rp in
  match pizza with
  | None => raise (AttributeError "'NoneType' object has no attribute 'id'")
  | Some pizza =>
      ret (JObj [("id"%string, JInt (Pizza.id pizza));
                 ("name"%string, JStr (Pizza.name pizza));
                 ("ingredients"%string, JStr (Pizza.ingredients pizza));
                 ("price"%string, JInt (RestaurantPizza.price rp))])
  end.

(** [serialized_restaurant['pizzas'] = pizzas_data] *)
Definition set_pizzas (serialized_restaurant : json) (pizzas_data : list json) : json :=
  match serialized_restaurant with
  | JObj members => JObj (members ++ [("pizzas"%string, JArr pizzas_data)])
  | j => j
  end.

(** [GET /restaurants/<int:id>] *)
Definition get (id : Z) : M response :=
  let! restaurant := Restaurant_query_get id in
  match restaurant with
  | None => ret (make_error_response "Restaurant not found" 404)
  | Some restaurant =>
      let serialized_restaurant := Restaurant.to_dict restaurant in
      let! rps := Restaurant_restaurant_pizzas restaurant in
      let! pizzas_data := for_each pizza_entry rps in
      ret (make_response (jsonify (set_pizzas serialized_restaurant pizzas_data)) 200)
  end.

(** [DELETE /restaurants/<int:id>] *)
Definition delete (fault : option exn) (id : Z) : M response :=
  let! restaurant := Restaurant_query_get id in
  match restaurant with
  | None => ret (make_error_response "Restaurant not found" 404)
  | Some restaurant =>
      try_except
        (do! db_session_delete restaurant in
         do! db_session_commit fault in
         ret (make_response (Text "") 204))
        (λ e,
          do! db_session_rollback in
          ret (make_error_response ("Failed to delete restaurant: " +:+ str e) 500))
  end.
End RestaurantByID.

Module Pizzas.
(** [GET /pizzas] *)
Definition get : M response :=
  let! pizzas := Pizza_query_all in
  let serialized_pizzas := map Pizza.to_dict pizzas in
  ret (make_response (jsonify (JArr serialized_pizzas)) 200).
End Pizzas.

Module RestaurantPizzas.
Definition missing_fields : string :=
  "Missing required fields: price, pizza_id, restaurant_id".

Definition integrity_error : string :=
  "A database integrity error occurred (e.g., invalid ID or duplicate entry).".

(** The [except] clauses of [post], tried in order: [ValueError],
    [IntegrityError], then any other [Exception]. *)
Definition except_clauses (e : exn) : M response :=
  match e with
  | ValueError _ =>
      do! db_session_rollback in
      ret (make_validation_error_response [str e] 400)
  | IntegrityError _ =>
      do! db_session_rollback in
      ret (make_validation_error_response [integrity_error] 400)
  | _ =>
      do! db_session_rollback in
      ret (make_error_response ("An unexpected server error occurred: " +:+ str e) 500)
  end.

(** The [try] statement of [post]: the association is constructed, added
    and committed, and then serialized for the 201 answer, still inside the
    [try]. *)
Definition create_under (serialize_fault : option exn) (price_error : string)
    (fault : option exn) (price pizza_id restaurant_id : Z) : M response :=
  try_except
    (let! new_rp := lift (RestaurantPizza.new price_error price pizza_id restaurant_id) in
     do! db_session_add new_rp in
     do! db_session_commit fault in
     let! new_rp := persisted new_rp in
     let! d := serialize serialize_fault new_rp in
     ret (make_response (jsonify d) 201))
    except_clauses.

(** [POST /restaurant_pizzas]. The presence check
    [all([price is not None, pizza_id is not None, restaurant_id is not None])]
    is the match on the three fields: its first branch is taken exactly when
    none of them is [None], whatever the integers are, zero included. Both
    lookups are made, outside the [try], before either result is tested. *)
Definition post_under (serialize_fault : option exn) (price_error : string)
    (fault : option exn) (data : request_json) : M response :=
  let! price := data_get data "price" in
  let! pizza_id := data_get data "pizza_id" in
  let! restaurant_id := data_get data "restaurant_id" in
  match price, pizza_id, restaurant_id with
  | Some price, Some pizza_id, Some restaurant_id =>
      let! restaurant := Restaurant_query_get restaurant_id in
      let! pizza := Pizza_query_get pizza_id in
      match restaurant, pizza with
      | None, _ => ret (make_error_response "Restaurant not found" 404)
      | Some _, None => ret (make_error_response "Pizza not found" 404)
      | Some _, Some _ =>
          create_under serialize_fault price_error fault price pizza_id restaurant_id
      end
  | _, _, _ => ret (make_validation_error_response [missing_fields] 400)
  end.

(** The [try] statement and the handler when serializing the created
    association does not fail. *)
Definition create (price_error : string) (fault : option exn)
    (price pizza_id restaurant_id : Z) : M response :=
  create_under None price_error fault price pizza_id restaurant_id.

Definition post (price_error : string) (fault : option exn) (data : request_json) : M response :=
  post_under None price_error fault data.
End RestaurantPizzas.

(** ** Serving a request

    A handler runs on a fresh session over the store; what is left pending
    when it returns is discarded with the session. *)
Definition serve {A} (h : M A) (st : Store) : (exn + A) * Store :=
  let '(r, s) := h (new_session st) in (r, db s).

(** A handler result is a failure unless it is a response with a 2xx status. *)
Definition is_success (r : exn + response) : bool :=
  match r with
  | inr resp => bool_decide (200 ≤ status_code resp < 300)
  | inl _ => false
  end.

(** A failure is reported when the handler returns a response whose status
    is not 200 and whose JSON body has the key "error" or "errors". *)
Definition reported (r : exn + response) : bool :=
  match r with
  | inr resp =>
      bool_decide (status_code resp ≠ 200) && (has_key "error" resp || has_key "errors" resp)
  | inl _ => false
  end.

(** ** A sample store and sample request bodies *)

Definition sample_store : Store :=
  mkStore
    [Restaurant.mk 1 "Karen's Pizza Shack" (Some "12 Hill St");
     Restaurant.mk 2 "Sanjay's Pizza" None]
    [Pizza.mk 1 "Emma" "Dough, Tomato Sauce, Cheese";
     Pizza.mk 2 "Geri" "Dough, Tomato Sauce, Cheese, Pepperoni"]
    [RestaurantPizza.mk (Some 1) 5 1 1;
     RestaurantPizza.mk (Some 2) 7 2 1;
     RestaurantPizza.mk (Some 3) 9 1 2].

Definition sample_body (price pizza_id restaurant_id : option Z) : gmap string (option Z) :=
  <["price"%string := price]>
    (<["pizza_id"%string := pizza_id]> (<["restaurant_id"%string := restaurant_id]> ∅)).

(** The sample store with one more association of restaurant 1, whose pizza
    does not exist. *)
Definition dangling_store : Store :=
  mkStore (restaurants sample_store) (pizzas sample_store)
          (restaurant_pizzas sample_store ++ [RestaurantPizza.mk (Some 4) 12 1 9]).

(** ** What a POST leaves behind *)

(** The row a successful POST appends, and the session it leaves. *)
Definition created_row (st : Store) (price pizza_id restaurant_id : Z) : RestaurantPizza.t :=
  RestaurantPizza.mk (Some (next_id (restaurant_pizzas st))) price restaurant_id pizza_id.

Definition created_store (st : Store) (price pizza_id restaurant_id : Z) : Store :=
  mkStore (restaurants st) (pizzas st)
          (restaurant_pizzas st ++ [created_row st price pizza_id restaurant_id]).

(** The response of each [except] clause. *)
Definition error_response (e : exn) : response :=
  match e with
  | ValueError msg =>
      make_response (Json (JObj [("errors"%string, JArr [JStr msg])])) 400
  | IntegrityError _ =>
      make_response
        (Json (JObj [("errors"%string,
                      JArr [JStr "A database integrity error occurred (e.g., invalid ID or duplicate entry)."])]))
        400
  | AttributeError msg | OverflowError msg | OtherException msg =>
      make_response
        (Json (JObj [("error"%string, JStr ("An unexpected server error occurred: " +:+ msg))]))
        500
  end.

(** ** The route table

    [@app.route("/")] and the four [api.add_resource] lines: one request per
    method a resource defines. *)

(** [GET /]: the handler returns the banner, which Flask sends with status
    200. *)
Definition index : M response :=
  ret (make_response (Text "<h1>Restaurant-Pizza API</h1>") 200).

Inductive request : Type :=
| GET_index
| GET_restaurants
| GET_restaurant_by_id (id : Z)
| DELETE_restaurant_by_id (id : Z)
| GET_pizzas
| POST_restaurant_pizzas (data : request_json).

Definition dispatch (price_error : string) (fault : option exn) (req : request) : M response :=
  match req with
  | GET_index => index
  | GET_restaurants => Restaurants.get
  | GET_restaurant_by_id id => RestaurantByID.get id
  | DELETE_restaurant_by_id id => RestaurantByID.delete fault id
  | GET_pizzas => Pizzas.get
  | POST_restaurant_pizzas data => RestaurantPizzas.post price_error fault data
  end.

(** The store after a sequence of requests served one after the other, each
    with what the store does at its commit (and the serialization after a
    commit not failing). *)
Definition serve_all (price_error : string) (st : Store)
    (reqs : list (request * option exn)) : Store :=
  foldl (λ st rf, snd (serve (dispatch price_error rf.2 rf.1) st)) st reqs.

(** Every association row has a price within 1..30. *)
Definition prices_in_range (st : Store) : bool :=
  forallb (λ rp, bool_decide (1 ≤ RestaurantPizza.price rp ≤ 30)) (restaurant_pizzas st).

(** * Properties *)

(** Unfolds the monad and the session operations of a handler. *)
Ltac run_handler :=
  unfold serve, bind, ret, raise, lift, try_except,
    Restaurant_query_all, Pizza_query_all, Restaurant_query_get, Pizza_query_get,
    Restaurant_restaurant_pizzas, RestaurantPizza_pizza, RestaurantPizza_restaurant,
    db_session_add, db_session_delete, db_session_commit, db_session_rollback,
    persisted, new_session;
  simpl.

(** ** Lookups and the store operations *)

Lemma find_restaurant_in_range st i :
  is_Some (find_restaurant st i) → in_int64 i = true.
Proof. unfold find_restaurant. intros [r H]. by destruct (in_int64 i). Qed.

Lemma find_pizza_in_range st i :
  is_Some (find_pizza st i) → in_int64 i = true.
Proof. unfold find_pizza. intros [p H]. by destruct (in_int64 i). Qed.

Lemma find_restaurant_id st i r :
  find_restaurant st i = Some r → Restaurant.id r = i.
Proof.
  unfold find_restaurant. intros H. destruct (in_int64 i); [|done].
  apply find_some in H as [_ H]. by apply bool_decide_eq_true in H.
Qed.

Lemma find_pizza_id st i p :
  find_pizza st i = Some p → Pizza.id p = i.
Proof.
  unfold find_pizza. intros H. destruct (in_int64 i); [|done].
  apply find_some in H as [_ H]. by apply bool_decide_eq_true in H.
Qed.

Lemma find_restaurant_delete st i j :
  find_restaurant (delete_restaurant i st) j =
  if decide (j = i) then None else find_restaurant st j.
Proof.
  unfold find_restaurant, delete_restaurant; simpl.
  destruct (in_int64 j); [|by case_decide].
  induction (restaurants st) as [|r rs IH]; simpl.
  - by case_decide.
  - rewrite filter_cons. destruct (decide (Restaurant.id r ≠ i)) as [Hne|Heq]; simpl.
    + destruct (bool_decide_reflect (Restaurant.id r = j)) as [Hj|Hj].
      * case_decide; [congruence | done].
      * exact IH.
    + apply dec_stable in Heq. rewrite IH.
      destruct (bool_decide_reflect (Restaurant.id r = j)) as [Hj|Hj]; [|done].
      case_decide; [done | congruence].
Qed.

Lemma owned_delete_same st i : owned (delete_restaurant i st) i = [].
Proof.
  unfold owned, delete_restaurant; simpl.
  induction (restaurant_pizzas st) as [|rp rps IH]; [done|].
  rewrite filter_cons. case_decide; [|done].
  rewrite filter_cons_False by done. exact IH.
Qed.

Lemma owned_delete_other st i j :
  j ≠ i → owned (delete_restaurant i st) j = owned st j.
Proof.
  intros Hne. unfold owned, delete_restaurant; simpl.
  induction (restaurant_pizzas st) as [|rp rps IH]; [done|].
  rewrite !filter_cons. repeat case_decide; try congruence.
  - rewrite filter_cons_True by done. by rewrite IH.
  - rewrite filter_cons_False by done. exact IH.
Qed.

Lemma owned_partition st i :
  restaurant_pizzas st ≡ₚ owned st i ++ restaurant_pizzas (delete_restaurant i st).
Proof.
  unfold owned, delete_restaurant; simpl.
  symmetry. apply (filter_app_complement (λ rp, RestaurantPizza.restaurant_id rp = i)).
Qed.

Lemma referential_integrity_pizza st rp :
  referential_integrity st = true → rp ∈ restaurant_pizzas st →
  is_Some (find_pizza st (RestaurantPizza.pizza_id rp)).
Proof.
  unfold referential_integrity. intros H Hin.
  apply Is_true_true, forallb_True in H.
  rewrite Forall_forall in H. specialize (H rp Hin).
  apply andb_True in H as [_ H]. by apply bool_decide_unpack in H.
Qed.

(** ** Running handlers *)

Lemma serve_run {A} (h : M A) st r s :
  h (new_session st) = (r, s) → serve h st = (r, db s).
Proof. unfold serve. by intros ->. Qed.

(** Reads leave the session as it is. *)
Lemma for_each_pizza_entry rps s :
  Forall (λ rp, is_Some (find_pizza (db s) (RestaurantPizza.pizza_id rp))) rps →
  ∃ pizzas_data,
    for_each RestaurantByID.pizza_entry rps s = (inr pizzas_data, s) ∧
    Forall2 (λ rp entry, ∃ p,
               find_pizza (db s) (RestaurantPizza.pizza_id rp) = Some p ∧
               entry = JObj [("id"%string, JInt (Pizza.id p));
                             ("name"%string, JStr (Pizza.name p));
                             ("ingredients"%string, JStr (Pizza.ingredients p));
                             ("price"%string, JInt (RestaurantPizza.price rp))])
            rps pizzas_data.
Proof.
  induction 1 as [|rp rps [p Hp] _ (ys & Hys & Hall)].
  - exists []. split; [done | constructor].
  - eexists (_ :: ys). split.
    + simpl. unfold bind at 1. unfold RestaurantByID.pizza_entry at 1.
      unfold bind at 1. unfold RestaurantPizza_pizza. rewrite Hp. simpl.
      unfold bind at 1. rewrite Hys. reflexivity.
    + constructor; [eauto | exact Hall].
Qed.

(** The two handlers of /restaurants/<id> on an id within 64 bits that
    resolves to no restaurant. *)
Lemma not_found_run st id fault :
  in_int64 id = true →
  find_restaurant st id = None →
  RestaurantByID.get id (new_session st) =
    (inr (make_error_response "Restaurant not found" 404), new_session st) ∧
  RestaurantByID.delete fault id (new_session st) =
    (inr (make_error_response "Restaurant not found" 404), new_session st).
Proof.
  intros Hin H. unfold RestaurantByID.get, RestaurantByID.delete.
  run_handler. by rewrite Hin, H.
Qed.

(** The two handlers of /restaurants/<id> on an id beyond 64 bits: the
    lookup raises, outside any [try]. *)
Lemma overflow_run s id fault :
  in_int64 id = false →
  RestaurantByID.get id s = (inl (OverflowError int_too_large), s) ∧
  RestaurantByID.delete fault id s = (inl (OverflowError int_too_large), s).
Proof.
  intros Hin. unfold RestaurantByID.get, RestaurantByID.delete, bind, Restaurant_query_get.
  by rewrite Hin.
Qed.

(** DELETE on an id that resolves to a restaurant, by what the commit does. *)
Lemma delete_found_run st id r fault :
  find_restaurant st id = Some r →
  RestaurantByID.delete fault id (new_session st) =
  match fault with
  | None => (inr (make_response (Text "") 204), new_session (delete_restaurant id st))
  | Some e =>
      (inr (make_error_response ("Failed to delete restaurant: " +:+ str e) 500),
       new_session st)
  end.
Proof.
  intros H. pose proof (find_restaurant_id _ _ _ H) as Hid.
  pose proof (find_restaurant_in_range st id (mk_is_Some _ _ H)) as Hin.
  unfold RestaurantByID.delete. run_handler. rewrite Hin, H. simpl.
  destruct fault; [done|]. unfold flush. simpl. by rewrite Hid.
Qed.

(** GET on an id that resolves to a restaurant, in a store that keeps its
    foreign keys. *)
Lemma get_found_run st id r :
  referential_integrity st = true →
  find_restaurant st id = Some r →
  ∃ pizzas_data,
    RestaurantByID.get id (new_session st) =
      (inr (make_response
              (jsonify (RestaurantByID.set_pizzas (Restaurant.to_dict r) pizzas_data)) 200),
       new_session st) ∧
    Forall2 (λ rp entry, ∃ p,
               find_pizza st (RestaurantPizza.pizza_id rp) = Some p ∧
               entry = JObj [("id"%string, JInt (Pizza.id p));
                             ("name"%string, JStr (Pizza.name p));
                             ("ingredients"%string, JStr (Pizza.ingredients p));
                             ("price"%string, JInt (RestaurantPizza.price rp))])
            (owned st id) pizzas_data.
Proof.
  intros Hri Hr.
  destruct (for_each_pizza_entry (owned st id) (new_session st)) as (ys & Hys & Hall).
  { apply Forall_forall. intros rp Hin. simpl.
    apply (referential_integrity_pizza st rp Hri).
    unfold owned in Hin. by apply list_elem_of_filter in Hin as [_ Hin]. }
  exists ys. split; [|exact Hall].
  pose proof (find_restaurant_id _ _ _ Hr) as Hid.
  pose proof (find_restaurant_in_range st id (mk_is_Some _ _ Hr)) as Hin.
  unfold RestaurantByID.get, bind, Restaurant_query_get, Restaurant_restaurant_pizzas, ret.
  cbv beta. change (db (new_session st)) with st. rewrite Hin, Hr.
  cbv beta iota. change (db (new_session st)) with st. by rewrite Hid, Hys.
Qed.

(** ** GET /restaurants/<id> *)

(** C3: for an id that resolves to a restaurant, in a store whose association
    rows all point at existing pizzas, GET /restaurants/<id> answers 200 with
    the restaurant's id, name and address and a [pizzas] array that has one
    entry per association owned by the restaurant, in order: each entry takes
    id, name and ingredients from the association's pizza and its price from
    that very association. The store is left as it was. *)
Theorem get_restaurant_by_id_found st id r :
  referential_integrity st = true →
  find_restaurant st id = Some r →
  ∃ pizzas_data,
    serve (RestaurantByID.get id) st =
      (inr (make_response
              (Json (JObj [("id"%string, JInt id);
                           ("name"%string, JStr (Restaurant.name r));
                           ("address"%string, from_option JStr JNull (Restaurant.address r));
                           ("pizzas"%string, JArr pizzas_data)]))
              200), st) ∧
    length pizzas_data = length (owned st id) ∧
    Forall2 (λ rp entry, ∃ p,
               find_pizza st (RestaurantPizza.pizza_id rp) = Some p ∧
               entry = JObj [("id"%string, JInt (Pizza.id p));
                             ("name"%string, JStr (Pizza.name p));
                             ("ingredients"%string, JStr (Pizza.ingredients p));
                             ("price"%string, JInt (RestaurantPizza.price rp))])
            (owned st id) pizzas_data.
Proof.
  intros Hri Hr.
  destruct (get_found_run st id r Hri Hr) as (ys & Hrun & Hall).
  exists ys. split; [|split].
  - rewrite (serve_run _ _ _ _ Hrun). simpl.
    by rewrite (find_restaurant_id _ _ _ Hr).
  - symmetry. eapply Forall2_length, Hall.
  - exact Hall.
Qed.

Lemma get_restaurant_by_id_found_witness :
  ∃ pizzas_data,
    serve (RestaurantByID.get 1) sample_store =
      (inr (make_response
              (Json (JObj [("id"%string, JInt 1);
                           ("name"%string, JStr "Karen's Pizza Shack");
                           ("address"%string, JStr "12 Hill St");
                           ("pizzas"%string, JArr pizzas_data)]))
              200), sample_store) ∧
    length pizzas_data = 2%nat.
Proof.
  destruct (get_restaurant_by_id_found sample_store 1
              (Restaurant.mk 1 "Karen's Pizza Shack" (Some "12 Hill St"))
              eq_refl eq_refl) as (ys & Hrun & Hlen & _).
  exists ys. split; [exact Hrun | exact Hlen].
Defined.

(** ** Unknown restaurant ids *)

(** For an id within 64 bits that resolves to no restaurant, GET
    /restaurants/<id> and DELETE /restaurants/<id> both answer 404 with the
    body {"error": "Restaurant not found"}, whatever the store would do at a
    commit, and the store is left as it was. *)
Lemma restaurant_by_id_not_found_in_range st id fault :
  in_int64 id = true →
  find_restaurant st id = None →
  serve (RestaurantByID.get id) st =
    (inr (make_response (Json (JObj [("error"%string, JStr "Restaurant not found")])) 404), st) ∧
  serve (RestaurantByID.delete fault id) st =
    (inr (make_response (Json (JObj [("error"%string, JStr "Restaurant not found")])) 404), st).
Proof.
  intros Hin H. destruct (not_found_run st id fault Hin H) as [Hget Hdel].
  by rewrite (serve_run _ _ _ _ Hget), (serve_run _ _ _ _ Hdel).
Qed.

(** C4, at an id beyond 64 bits: 9223372036854775808 resolves to no
    restaurant of any store, yet GET /restaurants/9223372036854775808 and
    DELETE /restaurants/9223372036854775808 do not answer 404: the lookup
    [Restaurant.query.get(id)], outside any [try], raises [OverflowError] and
    the handler returns no response. The store is left as it was. *)
Theorem restaurant_by_id_overflow st fault :
  find_restaurant st 9223372036854775808 = None ∧
  serve (RestaurantByID.get 9223372036854775808) st =
    (inl (OverflowError "Python int too large to convert to SQLite INTEGER"), st) ∧
  serve (RestaurantByID.delete fault 9223372036854775808) st =
    (inl (OverflowError "Python int too large to convert to SQLite INTEGER"), st).
Proof.
  split; [done|].
  destruct (overflow_run (new_session st) 9223372036854775808 fault eq_refl) as [Hget Hdel].
  by rewrite (serve_run _ _ _ _ Hget), (serve_run _ _ _ _ Hdel).
Qed.

(** ** DELETE /restaurants/<id> *)

(** C5: DELETE /restaurants/<id> on an existing restaurant answers 204 with
    an empty body when the commit goes through, the deletion being committed
    and nothing left pending; when the commit raises [e], the transaction is
    rolled back (nothing pending, the committed store as before the request)
    and the answer is 500 with the body
    {"error": "Failed to delete restaurant: <str(e)>"}. *)
Theorem delete_restaurant_outcomes st id r :
  find_restaurant st id = Some r →
  RestaurantByID.delete None id (new_session st) =
    (inr (make_response (Text "") 204), new_session (delete_restaurant id st)) ∧
  ∀ e, RestaurantByID.delete (Some e) id (new_session st) =
    (inr (make_response
            (Json (JObj [("error"%string, JStr ("Failed to delete restaurant: " +:+ str e))]))
            500),
     new_session st).
Proof.
  intros H. split.
  - exact (delete_found_run st id r None H).
  - intros e. exact (delete_found_run st id r (Some e) H).
Qed.

Lemma delete_restaurant_outcomes_witness :
  RestaurantByID.delete None 1 (new_session sample_store) =
    (inr (make_response (Text "") 204), new_session (delete_restaurant 1 sample_store)) ∧
  RestaurantByID.delete (Some (OtherException "database is locked")) 1
      (new_session sample_store) =
    (inr (make_response
            (Json (JObj [("error"%string,
                          JStr "Failed to delete restaurant: database is locked")]))
            500),
     new_session sample_store).
Proof.
  destruct (delete_restaurant_outcomes sample_store 1
              (Restaurant.mk 1 "Karen's Pizza Shack" (Some "12 Hill St")) eq_refl)
    as [Hok Hfail].
  split; [exact Hok | exact (Hfail (OtherException "database is locked"))].
Defined.

(** C6: a successful DELETE /restaurants/<id> on an existing restaurant
    removes the restaurant rows with that id and the association rows owned
    by it, and nothing else: the other restaurant rows and the pizza rows are
    as before, the association rows before the request are those owned by the
    restaurant together with those that remain (so exactly N rows are gone
    when N were owned), every other restaurant owns what it owned, and a
    following GET /restaurants/<id> answers 404. *)
Theorem delete_restaurant_cascade st id r :
  find_restaurant st id = Some r →
  ∃ st',
    serve (RestaurantByID.delete None id) st = (inr (make_response (Text "") 204), st') ∧
    restaurants st' = filter (λ x, Restaurant.id x ≠ id) (restaurants st) ∧
    pizzas st' = pizzas st ∧
    restaurant_pizzas st ≡ₚ owned st id ++ restaurant_pizzas st' ∧
    length (restaurant_pizzas st) = (length (owned st id) + length (restaurant_pizzas st'))%nat ∧
    owned st' id = [] ∧
    (∀ j, j ≠ id → owned st' j = owned st j ∧ find_restaurant st' j = find_restaurant st j) ∧
    serve (RestaurantByID.get id) st' =
      (inr (make_response (Json (JObj [("error"%string, JStr "Restaurant not found")])) 404), st').
Proof.
  intros H. exists (delete_restaurant id st).
  pose proof (delete_found_run st id r None H) as Hok.
  split; [by rewrite (serve_run _ _ _ _ Hok)|].
  split; [done|]. split; [done|].
  split; [apply owned_partition|].
  split; [by rewrite (owned_partition st id) at 1; rewrite length_app|].
  split; [apply owned_delete_same|].
  split.
  - intros j Hj. split; [by apply owned_delete_other|].
    rewrite find_restaurant_delete. by rewrite decide_False.
  - destruct (not_found_run (delete_restaurant id st) id None) as [Hget _].
    { exact (find_restaurant_in_range st id (mk_is_Some _ _ H)). }
    { rewrite find_restaurant_delete. by rewrite decide_True. }
    by rewrite (serve_run _ _ _ _ Hget).
Qed.

Lemma delete_restaurant_cascade_witness :
  ∃ st',
    serve (RestaurantByID.delete None 1) sample_store =
      (inr (make_response (Text "") 204), st') ∧
    length (restaurant_pizzas st') = 1%nat ∧
    pizzas st' = pizzas sample_store.
Proof.
  destruct (delete_restaurant_cascade sample_store 1
              (Restaurant.mk 1 "Karen's Pizza Shack" (Some "12 Hill St")) eq_refl)
    as (st' & Hrun & _ & Hp & _ & Hlen & _).
  exists st'. split; [exact Hrun|]. split; [|exact Hp].
  change (length (restaurant_pizzas sample_store)) with 3%nat in Hlen.
  change (length (owned sample_store 1)) with 2%nat in Hlen. lia.
Defined.

(** ** POST /restaurant_pizzas *)

(** The handler on a JSON object, by the fields it reads: both lookups are
    made before either result is tested, and each raises on a key beyond 64
    bits. *)
Lemma post_under_object serialize_fault price_error fault d s :
  RestaurantPizzas.post_under serialize_fault price_error fault (ReqObject d) s =
  match dict_get d "price", dict_get d "pizza_id", dict_get d "restaurant_id" with
  | Some price, Some pizza_id, Some restaurant_id =>
      if in_int64 restaurant_id && in_int64 pizza_id then
        match find_restaurant (db s) restaurant_id, find_pizza (db s) pizza_id with
        | None, _ => (inr (make_error_response "Restaurant not found" 404), s)
        | Some _, None => (inr (make_error_response "Pizza not found" 404), s)
        | Some _, Some _ =>
            RestaurantPizzas.create_under serialize_fault price_error fault
              price pizza_id restaurant_id s
        end
      else (inl (OverflowError int_too_large), s)
  | _, _, _ =>
      (inr (make_validation_error_response [RestaurantPizzas.missing_fields] 400), s)
  end.
Proof.
  unfold RestaurantPizzas.post_under, data_get. run_handler.
  destruct (dict_get d "price") as [price|], (dict_get d "pizza_id") as [pizza_id|],
    (dict_get d "restaurant_id") as [restaurant_id|]; try reflexivity.
  destruct (in_int64 restaurant_id), (in_int64 pizza_id); try reflexivity.
  destruct (find_restaurant (db s) restaurant_id), (find_pizza (db s) pizza_id); reflexivity.
Qed.

Lemma post_object price_error fault d s :
  RestaurantPizzas.post price_error fault (ReqObject d) s =
  match dict_get d "price", dict_get d "pizza_id", dict_get d "restaurant_id" with
  | Some price, Some pizza_id, Some restaurant_id =>
      if in_int64 restaurant_id && in_int64 pizza_id then
        match find_restaurant (db s) restaurant_id, find_pizza (db s) pizza_id with
        | None, _ => (inr (make_error_response "Restaurant not found" 404), s)
        | Some _, None => (inr (make_error_response "Pizza not found" 404), s)
        | Some _, Some _ =>
            RestaurantPizzas.create price_error fault price pizza_id restaurant_id s
        end
      else (inl (OverflowError int_too_large), s)
  | _, _, _ =>
      (inr (make_validation_error_response [RestaurantPizzas.missing_fields] 400), s)
  end.
Proof. apply post_under_object. Qed.

(** The handler on a JSON object whose three fields are present, with both
    ids within 64 bits. *)
Lemma post_under_in_range serialize_fault price_error fault d s price pizza_id restaurant_id :
  dict_get d "price" = Some price →
  dict_get d "pizza_id" = Some pizza_id →
  dict_get d "restaurant_id" = Some restaurant_id →
  in_int64 restaurant_id = true →
  in_int64 pizza_id = true →
  RestaurantPizzas.post_under serialize_fault price_error fault (ReqObject d) s =
  match find_restaurant (db s) restaurant_id, find_pizza (db s) pizza_id with
  | None, _ => (inr (make_error_response "Restaurant not found" 404), s)
  | Some _, None => (inr (make_error_response "Pizza not found" 404), s)
  | Some _, Some _ =>
      RestaurantPizzas.create_under serialize_fault price_error fault
        price pizza_id restaurant_id s
  end.
Proof. intros Hp Hpi Hri Hr Hpz. by rewrite post_under_object, Hp, Hpi, Hri, Hr, Hpz. Qed.

Lemma post_in_range price_error fault d s price pizza_id restaurant_id :
  dict_get d "price" = Some price →
  dict_get d "pizza_id" = Some pizza_id →
  dict_get d "restaurant_id" = Some restaurant_id →
  in_int64 restaurant_id = true →
  in_int64 pizza_id = true →
  RestaurantPizzas.post price_error fault (ReqObject d) s =
  match find_restaurant (db s) restaurant_id, find_pizza (db s) pizza_id with
  | None, _ => (inr (make_error_response "Restaurant not found" 404), s)
  | Some _, None => (inr (make_error_response "Pizza not found" 404), s)
  | Some _, Some _ =>
      RestaurantPizzas.create price_error fault price pizza_id restaurant_id s
  end.
Proof. apply post_under_in_range. Qed.

(** The handler on a request that passes the presence and existence
    checks. *)
Lemma post_found price_error fault d st price pizza_id restaurant_id :
  dict_get d "price" = Some price →
  dict_get d "pizza_id" = Some pizza_id →
  dict_get d "restaurant_id" = Some restaurant_id →
  is_Some (find_restaurant st restaurant_id) →
  is_Some (find_pizza st pizza_id) →
  RestaurantPizzas.post price_error fault (ReqObject d) (new_session st) =
  RestaurantPizzas.create price_error fault price pizza_id restaurant_id (new_session st).
Proof.
  intros Hp Hpi Hri Hr Hpz.
  rewrite (post_in_range _ _ _ _ _ _ _ Hp Hpi Hri
             (find_restaurant_in_range _ _ Hr) (find_pizza_in_range _ _ Hpz)).
  change (db (new_session st)) with st. by destruct Hr as [? ->], Hpz as [? ->].
Qed.

(** The [try] statement, by the price, by what the commit does and by what
    the serialization after the commit does. *)
Lemma create_under_run serialize_fault price_error fault price pizza_id restaurant_id st :
  RestaurantPizzas.create_under serialize_fault price_error fault
    price pizza_id restaurant_id (new_session st) =
  if bool_decide (1 ≤ price ≤ 30) then
    match fault with
    | Some e => (inr (error_response e), new_session st)
    | None =>
        let st' := created_store st price pizza_id restaurant_id in
        match serialize_fault with
        | Some e =>
            (inr (error_response e), mkSession st' [] (Some (next_id (restaurant_pizzas st))))
        | None =>
            (inr (make_response
                    (Json (JObj [("id"%string, JInt (next_id (restaurant_pizzas st)));
                                 ("price"%string, JInt price);
                                 ("restaurant_id"%string, JInt restaurant_id);
                                 ("pizza_id"%string, JInt pizza_id);
                                 ("restaurant"%string,
                                  from_option Restaurant.to_dict JNull
                                    (find_restaurant st restaurant_id));
                                 ("pizza"%string,
                                  from_option Pizza.to_dict JNull (find_pizza st pizza_id))]))
                    201),
             mkSession st' [] (Some (next_id (restaurant_pizzas st))))
        end
    end
  else
    (inr (make_response (Json (JObj [("errors"%string, JArr [JStr price_error])])) 400),
     new_session st).
Proof.
  unfold RestaurantPizzas.create_under, RestaurantPizzas.except_clauses, serialize,
    RestaurantPizza_to_dict, RestaurantPizza.new, RestaurantPizza.validate_price.
  destruct (bool_decide (1 ≤ price ≤ 30)).
  - destruct fault as [[]|]; try reflexivity.
    destruct serialize_fault as [[]|]; reflexivity.
  - reflexivity.
Qed.

(** The [try] statement when the serialization does not fail. *)
Lemma create_run price_error fault price pizza_id restaurant_id st :
  RestaurantPizzas.create price_error fault price pizza_id restaurant_id (new_session st) =
  if bool_decide (1 ≤ price ≤ 30) then
    match fault with
    | Some e => (inr (error_response e), new_session st)
    | None =>
        let st' := created_store st price pizza_id restaurant_id in
        (inr (make_response
                (Json (JObj [("id"%string, JInt (next_id (restaurant_pizzas st)));
                             ("price"%string, JInt price);
                             ("restaurant_id"%string, JInt restaurant_id);
                             ("pizza_id"%string, JInt pizza_id);
                             ("restaurant"%string,
                              from_option Restaurant.to_dict JNull
                                (find_restaurant st restaurant_id));
                             ("pizza"%string,
                              from_option Pizza.to_dict JNull (find_pizza st pizza_id))]))
                201),
         mkSession st' [] (Some (next_id (restaurant_pizzas st))))
    end
  else
    (inr (make_response (Json (JObj [("errors"%string, JArr [JStr price_error])])) 400),
     new_session st).
Proof. apply (create_under_run None). Qed.

(** On a JSON object, POST /restaurant_pizzas validates in a fixed order.
    A null or absent price, pizza_id or restaurant_id answers 400 with
    {"errors": ["Missing required fields: price, pizza_id, restaurant_id"]}.
    With the three present, both lookups run: an id beyond 64 bits raises
    [OverflowError]; with both ids within 64 bits an unknown restaurant
    answers 404 {"error": "Restaurant not found"} and a known restaurant
    with an unknown pizza answers 404 {"error": "Pizza not found"}. In all
    these cases nothing is added to the session or the store. With the three
    checks passed the handler runs the construct-and-persist step, and a run
    that changes the store, leaves something pending or answers 201 has
    passed all three. *)
Lemma post_validation_order_in_range price_error fault d st :
  let run := RestaurantPizzas.post price_error fault (ReqObject d) (new_session st) in
  (dict_get d "price" = None ∨ dict_get d "pizza_id" = None ∨
   dict_get d "restaurant_id" = None →
   run = (inr (make_response
                 (Json (JObj [("errors"%string,
                               JArr [JStr "Missing required fields: price, pizza_id, restaurant_id"])]))
                 400),
          new_session st)) ∧
  (∀ price pizza_id restaurant_id,
     dict_get d "price" = Some price →
     dict_get d "pizza_id" = Some pizza_id →
     dict_get d "restaurant_id" = Some restaurant_id →
     (in_int64 restaurant_id = false ∨ in_int64 pizza_id = false →
      run = (inl (OverflowError "Python int too large to convert to SQLite INTEGER"),
             new_session st)) ∧
     (in_int64 restaurant_id = true → in_int64 pizza_id = true →
      find_restaurant st restaurant_id = None →
      run = (inr (make_response
                    (Json (JObj [("error"%string, JStr "Restaurant not found")])) 404),
             new_session st)) ∧
     (is_Some (find_restaurant st restaurant_id) → in_int64 pizza_id = true →
      find_pizza st pizza_id = None →
      run = (inr (make_response
                    (Json (JObj [("error"%string, JStr "Pizza not found")])) 404),
             new_session st)) ∧
     (is_Some (find_restaurant st restaurant_id) → is_Some (find_pizza st pizza_id) →
      run = RestaurantPizzas.create price_error fault price pizza_id restaurant_id
              (new_session st))) ∧
  (∀ r s',
     run = (r, s') →
     db s' ≠ st ∨ pending s' ≠ [] ∨ (∃ resp, r = inr resp ∧ status_code resp = 201) →
     ∃ price pizza_id restaurant_id,
       dict_get d "price" = Some price ∧
       dict_get d "pizza_id" = Some pizza_id ∧
       dict_get d "restaurant_id" = Some restaurant_id ∧
       is_Some (find_restaurant st restaurant_id) ∧
       is_Some (find_pizza st pizza_id)).
Proof.
  intros run. subst run. split; [|split].
  - rewrite post_object. intros [H|[H|H]]; rewrite H; repeat case_match; reflexivity.
  - intros price pizza_id restaurant_id Hp Hpi Hri. split; [|split; [|split]].
    + intros Hout. rewrite post_object, Hp, Hpi, Hri.
      by destruct Hout as [-> | ->]; [|rewrite andb_false_r].
    + intros Hr Hpz Hnone. rewrite (post_in_range _ _ _ _ _ _ _ Hp Hpi Hri Hr Hpz).
      change (db (new_session st)) with st. by rewrite Hnone.
    + intros Hsome Hpz Hnone.
      rewrite (post_in_range _ _ _ _ _ _ _ Hp Hpi Hri
                 (find_restaurant_in_range _ _ Hsome) Hpz).
      change (db (new_session st)) with st. destruct Hsome as [r ->]. by rewrite Hnone.
    + intros Hr Hpz. by apply post_found.
  - intros r s' Hrun Hchanged. rewrite post_object in Hrun.
    change (db (new_session st)) with st in Hrun.
    destruct (dict_get d "price") as [price|] eqn:Hp,
      (dict_get d "pizza_id") as [pizza_id|] eqn:Hpi,
      (dict_get d "restaurant_id") as [restaurant_id|] eqn:Hri;
      try (injection Hrun as <- <-;
           destruct Hchanged as [Hc|[Hc|(resp & [= <-] & Hc)]]; done).
    destruct (in_int64 restaurant_id && in_int64 pizza_id);
      [|injection Hrun as <- <-;
        destruct Hchanged as [Hc|[Hc|(resp & Hresp & Hc)]]; done].
    destruct (find_restaurant st restaurant_id) as [restaurant|] eqn:Hr,
      (find_pizza st pizza_id) as [pizza|] eqn:Hpz;
      try (injection Hrun as <- <-;
           destruct Hchanged as [Hc|[Hc|(resp & [= <-] & Hc)]]; done).
    exists price, pizza_id, restaurant_id. rewrite Hr, Hpz. eauto 10.
Qed.

(** C1, at a pizza_id beyond 64 bits: restaurant 8 is not in the sample
    store, yet on the body
    {"price": 10, "pizza_id": 9223372036854775808, "restaurant_id": 8} the
    handler does not answer 404 {"error": "Restaurant not found"}: both
    lookups run, outside the [try], before either result is tested, and the
    pizza lookup raises [OverflowError], whatever the store holds. *)
Theorem post_pizza_lookup_decides price_error fault st :
  find_restaurant sample_store 8 = None ∧
  serve (RestaurantPizzas.post price_error fault
           (ReqObject (sample_body (Some 10) (Some 9223372036854775808) (Some 8)))) st =
    (inl (OverflowError "Python int too large to convert to SQLite INTEGER"), st).
Proof.
  split; [done|]. unfold serve. by rewrite post_object.
Qed.

(** C2: a POST /restaurant_pizzas request that passes the presence and the
    existence checks is decided by the price. Outside 1..30 nothing is
    written: whatever the commit would do, the session ends with nothing
    pending over the store as it was, and the answer is 400 with the
    validator's message in the "errors" array. Within 1..30, bounds included,
    and the commit going through, the association is appended to the table
    under a generated id and the answer is 201 with the serialized
    association. *)
Theorem post_price_range price_error d st price pizza_id restaurant_id r p :
  dict_get d "price" = Some price →
  dict_get d "pizza_id" = Some pizza_id →
  dict_get d "restaurant_id" = Some restaurant_id →
  find_restaurant st restaurant_id = Some r →
  find_pizza st pizza_id = Some p →
  (price < 1 ∨ 30 < price →
   ∀ fault,
     RestaurantPizzas.post price_error fault (ReqObject d) (new_session st) =
       (inr (make_response (Json (JObj [("errors"%string, JArr [JStr price_error])])) 400),
        new_session st)) ∧
  (1 ≤ price ≤ 30 →
   RestaurantPizzas.post price_error None (ReqObject d) (new_session st) =
     (inr (make_response
             (Json (JObj [("id"%string, JInt (next_id (restaurant_pizzas st)));
                          ("price"%string, JInt price);
                          ("restaurant_id"%string, JInt restaurant_id);
                          ("pizza_id"%string, JInt pizza_id);
                          ("restaurant"%string, Restaurant.to_dict r);
                          ("pizza"%string, Pizza.to_dict p)]))
             201),
      mkSession
        (mkStore (restaurants st) (pizzas st)
           (restaurant_pizzas st ++
            [RestaurantPizza.mk (Some (next_id (restaurant_pizzas st)))
               price restaurant_id pizza_id]))
        [] (Some (next_id (restaurant_pizzas st))))).
Proof.
  intros Hp Hpi Hri Hr Hpz. split.
  - intros Hout fault.
    rewrite (post_found _ _ _ _ _ _ _ Hp Hpi Hri (mk_is_Some _ _ Hr) (mk_is_Some _ _ Hpz)).
    rewrite create_run, bool_decide_eq_false_2 by lia. reflexivity.
  - intros Hin.
    rewrite (post_found _ _ _ _ _ _ _ Hp Hpi Hri (mk_is_Some _ _ Hr) (mk_is_Some _ _ Hpz)).
    rewrite create_run, bool_decide_eq_true_2 by lia. cbv zeta. rewrite Hr, Hpz. reflexivity.
Qed.

Lemma post_price_range_witness :
  RestaurantPizzas.post "Price must be between 1 and 30" None
    (ReqObject (sample_body (Some 0) (Some 2) (Some 2))) (new_session sample_store) =
    (inr (make_response
            (Json (JObj [("errors"%string, JArr [JStr "Price must be between 1 and 30"])]))
            400),
     new_session sample_store) ∧
  RestaurantPizzas.post "Price must be between 1 and 30" None
    (ReqObject (sample_body (Some 31) (Some 2) (Some 2))) (new_session sample_store) =
    (inr (make_response
            (Json (JObj [("errors"%string, JArr [JStr "Price must be between 1 and 30"])]))
            400),
     new_session sample_store) ∧
  (∃ resp,
     serve (RestaurantPizzas.post "Price must be between 1 and 30" None
              (ReqObject (sample_body (Some 1) (Some 2) (Some 2)))) sample_store =
       (inr resp,
        mkStore (restaurants sample_store) (pizzas sample_store)
          (restaurant_pizzas sample_store ++ [RestaurantPizza.mk (Some 4) 1 2 2])) ∧
     status_code resp = 201) ∧
  (∃ resp,
     serve (RestaurantPizzas.post "Price must be between 1 and 30" None
              (ReqObject (sample_body (Some 30) (Some 2) (Some 2)))) sample_store =
       (inr resp,
        mkStore (restaurants sample_store) (pizzas sample_store)
          (restaurant_pizzas sample_store ++ [RestaurantPizza.mk (Some 4) 30 2 2])) ∧
     status_code resp = 201).
Proof.
  pose proof (λ price,
    post_price_range "Price must be between 1 and 30"
      (sample_body (Some price) (Some 2) (Some 2)) sample_store price 2 2
      (Restaurant.mk 2 "Sanjay's Pizza" None)
      (Pizza.mk 2 "Geri" "Dough, Tomato Sauce, Cheese, Pepperoni")
      eq_refl eq_refl eq_refl eq_refl eq_refl) as H.
  split; [|split; [|split]].
  - apply (H 0). lia.
  - apply (H 31). lia.
  - eexists. split.
    + exact (serve_run _ _ _ _ (proj2 (H 1) ltac:(lia))).
    + reflexivity.
  - eexists. split.
    + exact (serve_run _ _ _ _ (proj2 (H 30) ltac:(lia))).
    + reflexivity.
Defined.

(** A run of the handler either leaves the session as it found it, or has
    passed every check and committed the new row; in the second case the
    answer is a success exactly when the serialization after the commit did
    not fail. *)
Lemma post_under_run_cases serialize_fault price_error fault data st r s' :
  RestaurantPizzas.post_under serialize_fault price_error fault data (new_session st) =
    (r, s') →
  s' = new_session st ∨
  ∃ price pizza_id restaurant_id,
    is_Some (find_restaurant st restaurant_id) ∧
    is_Some (find_pizza st pizza_id) ∧
    1 ≤ price ≤ 30 ∧
    db s' = created_store st price pizza_id restaurant_id ∧
    fault = None ∧
    (is_success r = true ↔ serialize_fault = None).
Proof.
  intros Hrun.
  destruct data as [d| | | | |];
    try (by left; injection Hrun as <- <-).
  rewrite post_under_object in Hrun. change (db (new_session st)) with st in Hrun.
  destruct (dict_get d "price") as [price|], (dict_get d "pizza_id") as [pizza_id|],
    (dict_get d "restaurant_id") as [restaurant_id|];
    try (by left; injection Hrun as <- <-).
  destruct (in_int64 restaurant_id && in_int64 pizza_id);
    [|by left; injection Hrun as <- <-].
  destruct (find_restaurant st restaurant_id) as [restaurant|] eqn:Hr,
    (find_pizza st pizza_id) as [pizza|] eqn:Hpz;
    try (by left; injection Hrun as <- <-).
  rewrite create_under_run in Hrun.
  destruct (bool_decide_reflect (1 ≤ price ≤ 30)) as [Hrange|_];
    [|by left; injection Hrun as <- <-].
  destruct fault as [e|]; [by left; injection Hrun as <- <-|].
  right. exists price, pizza_id, restaurant_id.
  rewrite Hr, Hpz.
  destruct serialize_fault as [e|]; injection Hrun as <- <-;
    (do 5 (split; [by eauto|])); [by destruct e|done].
Qed.

Lemma post_run_cases price_error fault data st r s' :
  RestaurantPizzas.post price_error fault data (new_session st) = (r, s') →
  s' = new_session st ∨
  ∃ price pizza_id restaurant_id,
    is_Some (find_restaurant st restaurant_id) ∧
    is_Some (find_pizza st pizza_id) ∧
    1 ≤ price ≤ 30 ∧
    db s' = created_store st price pizza_id restaurant_id ∧
    is_success r = true.
Proof.
  intros Hrun.
  destruct (post_under_run_cases None _ _ _ _ _ _ Hrun)
    as [?|(price & pizza_id & restaurant_id & ? & ? & ? & ? & _ & Hok)]; [by left|].
  right. exists price, pizza_id, restaurant_id. rewrite Hok. eauto 10.
Qed.

(** A POST /restaurant_pizzas request that fails (the handler raises, or
    answers with a status outside 2xx) has persisted nothing, with one
    exception: when the failure is that of the serialization after a commit
    that went through, the new row is committed. *)
Lemma post_under_failure serialize_fault price_error fault data st r s' :
  RestaurantPizzas.post_under serialize_fault price_error fault data (new_session st) =
    (r, s') →
  is_success r = false →
  s' = new_session st ∨
  (is_Some serialize_fault ∧ fault = None ∧
   ∃ price pizza_id restaurant_id, db s' = created_store st price pizza_id restaurant_id).
Proof.
  intros Hrun Hfail.
  destruct (post_under_run_cases _ _ _ _ _ _ _ Hrun)
    as [?|(price & pizza_id & restaurant_id & _ & _ & _ & Hdb & Hfault & Hok)]; [by left|].
  right. split; [|split; [done|eauto]].
  destruct serialize_fault; [done|]. destruct Hok as [_ Hok].
  rewrite Hok in Hfail; done.
Qed.

(** When the serialization after the commit does not fail, a POST
    /restaurant_pizzas request that fails persists nothing: whatever the
    body, whatever the price and whatever the commit raises, the session ends
    with nothing pending over the store as it was before the request. *)
Lemma post_failure_persists_nothing price_error fault data st r s' :
  RestaurantPizzas.post price_error fault data (new_session st) = (r, s') →
  is_success r = false →
  s' = new_session st ∧ snd (serve (RestaurantPizzas.post price_error fault data) st) = st.
Proof.
  intros Hrun Hfail.
  assert (s' = new_session st) as ->; [|by rewrite (serve_run _ _ _ _ Hrun)].
  destruct (post_run_cases _ _ _ _ _ _ Hrun) as [?|(? & ? & ? & _ & _ & _ & _ & Hok)];
    [done | congruence].
Qed.

(** C7, at a failure after the commit: on the sample store, for the body
    {"price": 10, "pizza_id": 2, "restaurant_id": 2}, with the commit going
    through and the serialization of the created association raising, the
    handler reaches its last [except] clause, whose rollback comes after the
    commit: it answers 500 with an "error" body while the new association,
    under the generated id 4, is in the store. *)
Theorem post_serialization_failure_persists price_error :
  serve (RestaurantPizzas.post_under (Some (OtherException "database is locked"))
           price_error None
           (ReqObject (sample_body (Some 10) (Some 2) (Some 2)))) sample_store =
    (inr (make_response
            (Json (JObj [("error"%string,
                          JStr "An unexpected server error occurred: database is locked")]))
            500),
     mkStore (restaurants sample_store) (pizzas sample_store)
       (restaurant_pizzas sample_store ++ [RestaurantPizza.mk (Some 4) 10 2 2])) ∧
  is_success
    (fst (serve (RestaurantPizzas.post_under (Some (OtherException "database is locked"))
                   price_error None
                   (ReqObject (sample_body (Some 10) (Some 2) (Some 2)))) sample_store)) =
    false.
Proof.
  unfold serve. rewrite post_under_object. change (db (new_session sample_store)) with sample_store.
  change (dict_get (sample_body (Some 10) (Some 2) (Some 2)) "price") with (Some 10).
  change (dict_get (sample_body (Some 10) (Some 2) (Some 2)) "pizza_id") with (Some 2).
  change (dict_get (sample_body (Some 10) (Some 2) (Some 2)) "restaurant_id") with (Some 2).
  cbn -[RestaurantPizzas.create_under]. by rewrite create_under_run.
Qed.

(** C8, at a body that is not a JSON object: on the JSON array [[]] and on
    JSON [null] the handler of POST /restaurant_pizzas raises
    [AttributeError] at [data.get], outside its [try]; it returns no response,
    so no body with an "error" or "errors" key. *)
Theorem post_non_object_body_raises price_error fault st :
  serve (RestaurantPizzas.post price_error fault (ReqArray [])) st =
    (inl (AttributeError "'list' object has no attribute 'get'"), st) ∧
  serve (RestaurantPizzas.post price_error fault ReqNull) st =
    (inl (AttributeError "'NoneType' object has no attribute 'get'"), st) ∧
  reported (fst (serve (RestaurantPizzas.post price_error fault (ReqArray [])) st)) = false.
Proof. by repeat split. Qed.

(** On a JSON object, when the serialization after the commit does not
    fail, every failure of POST /restaurant_pizzas is either reported (a
    response with a status other than 200 and an "error" or "errors" key) or
    the [OverflowError] of a lookup by an id beyond 64 bits. *)
Lemma post_object_failure_reported price_error fault d st :
  let r := fst (serve (RestaurantPizzas.post price_error fault (ReqObject d)) st) in
  is_success r = false →
  reported r = true ∨ r = inl (OverflowError int_too_large).
Proof.
  intros r. subst r. unfold serve. rewrite post_object.
  change (db (new_session st)) with st.
  destruct (dict_get d "price") as [price|], (dict_get d "pizza_id") as [pizza_id|],
    (dict_get d "restaurant_id") as [restaurant_id|]; try (by left).
  destruct (in_int64 restaurant_id && in_int64 pizza_id); [|by right].
  destruct (find_restaurant st restaurant_id), (find_pizza st pizza_id); try (by left).
  rewrite create_run.
  destruct (bool_decide (1 ≤ price ≤ 30)); [|by left].
  destruct fault as [[]|]; by left.
Qed.

(** Any body that is not a JSON object makes the handler raise at the first
    [data.get]. *)
Lemma post_non_object price_error fault data s :
  (∀ d, data ≠ ReqObject d) →
  RestaurantPizzas.post price_error fault data s =
    (inl (AttributeError ("'" +:+ type_name data +:+ "' object has no attribute 'get'")), s).
Proof. intros H. destruct data; [by destruct (H d)|done..]. Qed.

(** Every failure of DELETE /restaurants/<id> is either reported or the
    [OverflowError] of the lookup by an id beyond 64 bits. *)
Lemma delete_failure_reported fault id st :
  let r := fst (serve (RestaurantByID.delete fault id) st) in
  is_success r = false →
  reported r = true ∨ r = inl (OverflowError int_too_large).
Proof.
  intros r. subst r. unfold RestaurantByID.delete. run_handler.
  destruct (in_int64 id); [|by right].
  destruct (find_restaurant st id); [|by left].
  simpl. destruct fault; by left.
Qed.

(** In a store that keeps its foreign keys, GET /restaurants/<id> succeeds,
    reports the failure, or raises the [OverflowError] of the lookup by an id
    beyond 64 bits. *)
Lemma get_failure_reported id st :
  referential_integrity st = true →
  let r := fst (serve (RestaurantByID.get id) st) in
  is_success r = false →
  reported r = true ∨ r = inl (OverflowError int_too_large).
Proof.
  intros Hri r. subst r. destruct (in_int64 id) eqn:Hin.
  - destruct (find_restaurant st id) as [x|] eqn:Hx.
    + destruct (get_found_run st id x Hri Hx) as (ys & Hrun & _).
      by rewrite (serve_run _ _ _ _ Hrun).
    + destruct (not_found_run st id None Hin Hx) as [Hget _].
      rewrite (serve_run _ _ _ _ Hget). by left.
  - destruct (overflow_run (new_session st) id None Hin) as [Hget _].
    rewrite (serve_run _ _ _ _ Hget). by right.
Qed.

(** ** GET /restaurants and GET /pizzas *)

(** C9: GET /restaurants answers 200 with one object per restaurant row, in
    order, made of id, name and address, and GET /pizzas answers 200 with one
    object per pizza row made of id, name and ingredients; both leave the
    store as it was, so two calls in a row give the same answer, and with no
    rows the array is empty. *)
Theorem list_endpoints_read_only st :
  serve Restaurants.get st =
    (inr (make_response
            (Json (JArr (map (λ r, JObj [("id"%string, JInt (Restaurant.id r));
                                         ("name"%string, JStr (Restaurant.name r));
                                         ("address"%string,
                                          from_option JStr JNull (Restaurant.address r))])
                             (restaurants st))))
            200), st) ∧
  serve Pizzas.get st =
    (inr (make_response
            (Json (JArr (map (λ p, JObj [("id"%string, JInt (Pizza.id p));
                                         ("name"%string, JStr (Pizza.name p));
                                         ("ingredients"%string, JStr (Pizza.ingredients p))])
                             (pizzas st))))
            200), st) ∧
  (let '(r1, st1) := serve Restaurants.get st in
   let '(r2, st2) := serve Restaurants.get st1 in
   r1 = r2 ∧ st2 = st) ∧
  (let '(r1, st1) := serve Pizzas.get st in
   let '(r2, st2) := serve Pizzas.get st1 in
   r1 = r2 ∧ st2 = st) ∧
  (restaurants st = [] →
   fst (serve Restaurants.get st) = inr (make_response (Json (JArr [])) 200)) ∧
  (pizzas st = [] →
   fst (serve Pizzas.get st) = inr (make_response (Json (JArr [])) 200)).
Proof.
  unfold Restaurants.get, Pizzas.get. run_handler.
  repeat split; try reflexivity.
  - by intros ->.
  - by intros ->.
Qed.

Lemma list_endpoints_read_only_witness :
  fst (serve Restaurants.get (mkStore [] [] [])) =
    inr (make_response (Json (JArr [])) 200) ∧
  fst (serve Pizzas.get (mkStore [] [] [])) =
    inr (make_response (Json (JArr [])) 200).
Proof.
  destruct (list_endpoints_read_only (mkStore [] [] [])) as (_ & _ & _ & _ & Hr & Hp).
  split; [apply Hr | apply Hp]; reflexivity.
Defined.

(** C10: the presence check of POST /restaurant_pizzas only rejects [None].
    With the three fields present, whatever their values, zero included, the
    request goes on to the lookups and the existence checks: with both ids
    within 64 bits (as zero is), an unknown restaurant answers 404 and a
    known restaurant with an unknown pizza answers 404; both found, the
    request goes on to the construct-and-persist step. A price of 0 with
    both ids known is rejected there with 400 and the validator's message in
    "errors", which is not the missing-fields answer as long as the
    validator's message is not the missing-fields text. *)
Theorem post_zero_passes_presence_check price_error fault d st price pizza_id restaurant_id :
  dict_get d "price" = Some price →
  dict_get d "pizza_id" = Some pizza_id →
  dict_get d "restaurant_id" = Some restaurant_id →
  let run := serve (RestaurantPizzas.post price_error fault (ReqObject d)) st in
  (in_int64 restaurant_id = true → in_int64 pizza_id = true →
   find_restaurant st restaurant_id = None →
   run = (inr (make_response
                 (Json (JObj [("error"%string, JStr "Restaurant not found")])) 404), st)) ∧
  (is_Some (find_restaurant st restaurant_id) → in_int64 pizza_id = true →
   find_pizza st pizza_id = None →
   run = (inr (make_response
                 (Json (JObj [("error"%string, JStr "Pizza not found")])) 404), st)) ∧
  (is_Some (find_restaurant st restaurant_id) → is_Some (find_pizza st pizza_id) →
   run = serve (RestaurantPizzas.create price_error fault price pizza_id restaurant_id) st ∧
   (price = 0 →
    run = (inr (make_response
                  (Json (JObj [("errors"%string, JArr [JStr price_error])])) 400), st) ∧
    (price_error ≠ "Missing required fields: price, pizza_id, restaurant_id"%string →
     fst run ≠
       inr (make_response
              (Json (JObj [("errors"%string,
                            JArr [JStr "Missing required fields: price, pizza_id, restaurant_id"])]))
              400)))).
Proof.
  intros Hp Hpi Hri run. subst run. unfold serve.
  split; [|split].
  - intros Hr Hpz Hnone. rewrite (post_in_range _ _ _ _ _ _ _ Hp Hpi Hri Hr Hpz).
    change (db (new_session st)) with st. by rewrite Hnone.
  - intros Hsome Hpz Hnone.
    rewrite (post_in_range _ _ _ _ _ _ _ Hp Hpi Hri
               (find_restaurant_in_range _ _ Hsome) Hpz).
    change (db (new_session st)) with st. destruct Hsome as [r ->]. by rewrite Hnone.
  - intros Hr Hpz. rewrite (post_found _ _ _ _ _ _ _ Hp Hpi Hri Hr Hpz).
    split; [done|].
    intros ->. rewrite create_run. simpl. split; [done|].
    intros Hne Heq. apply Hne. by injection Heq.
Qed.

Lemma post_zero_passes_presence_check_witness :
  serve (RestaurantPizzas.post "Price must be between 1 and 30" None
           (ReqObject (sample_body (Some 0) (Some 1) (Some 1)))) sample_store =
    (inr (make_response
            (Json (JObj [("errors"%string, JArr [JStr "Price must be between 1 and 30"])]))
            400),
     sample_store) ∧
  serve (RestaurantPizzas.post "Price must be between 1 and 30" None
           (ReqObject (sample_body (Some 5) (Some 1) (Some 0)))) sample_store =
    (inr (make_response (Json (JObj [("error"%string, JStr "Restaurant not found")])) 404),
     sample_store) ∧
  serve (RestaurantPizzas.post "Price must be between 1 and 30" None
           (ReqObject (sample_body (Some 5) (Some 0) (Some 1)))) sample_store =
    (inr (make_response (Json (JObj [("error"%string, JStr "Pizza not found")])) 404),
     sample_store).
Proof.
  split; [|split].
  - apply (post_zero_passes_presence_check "Price must be between 1 and 30" None
             (sample_body (Some 0) (Some 1) (Some 1)) sample_store 0 1 1);
      try reflexivity.
    + vm_compute. eauto.
    + vm_compute. eauto.
  - apply (post_zero_passes_presence_check "Price must be between 1 and 30" None
             (sample_body (Some 5) (Some 1) (Some 0)) sample_store 5 1 0);
      reflexivity.
  - apply (post_zero_passes_presence_check "Price must be between 1 and 30" None
             (sample_body (Some 5) (Some 0) (Some 1)) sample_store 5 0 1);
      try reflexivity.
    vm_compute. eauto.
Defined.

(** ** Referential integrity is an invariant of the API

    The two writing handlers keep every association row pointing at an
    existing restaurant and an existing pizza. *)

Lemma referential_integrity_Forall st :
  referential_integrity st = true ↔
  Forall (λ rp, is_Some (find_restaurant st (RestaurantPizza.restaurant_id rp)) ∧
                is_Some (find_pizza st (RestaurantPizza.pizza_id rp)))
         (restaurant_pizzas st).
Proof.
  unfold referential_integrity.
  rewrite <- Is_true_true, forallb_True. apply Forall_proper; [|done].
  intros rp. by rewrite andb_True, !bool_decide_spec.
Qed.

Lemma referential_integrity_created st price pizza_id restaurant_id :
  referential_integrity st = true →
  is_Some (find_restaurant st restaurant_id) →
  is_Some (find_pizza st pizza_id) →
  referential_integrity (created_store st price pizza_id restaurant_id) = true.
Proof.
  rewrite !referential_integrity_Forall. intros H Hr Hp.
  unfold created_store; simpl. apply Forall_app. split; [exact H|].
  by repeat constructor.
Qed.

Lemma referential_integrity_deleted st i :
  referential_integrity st = true →
  referential_integrity (delete_restaurant i st) = true.
Proof.
  rewrite !referential_integrity_Forall. intros H.
  rewrite Forall_forall in H. apply Forall_forall. intros rp Hin.
  simpl in Hin. apply list_elem_of_filter in Hin as [Hne Hin].
  rewrite find_restaurant_delete, decide_False by done.
  exact (H rp Hin).
Qed.

Lemma post_preserves_referential_integrity price_error fault data st :
  referential_integrity st = true →
  referential_integrity (snd (serve (RestaurantPizzas.post price_error fault data) st)) = true.
Proof.
  intros H.
  destruct (RestaurantPizzas.post price_error fault data (new_session st)) as [r s'] eqn:Hrun.
  rewrite (serve_run _ _ _ _ Hrun). simpl.
  destruct (post_run_cases _ _ _ _ _ _ Hrun)
    as [->|(price & pizza_id & restaurant_id & Hr & Hp & _ & -> & _)]; [done|].
  by apply referential_integrity_created.
Qed.

Lemma delete_preserves_referential_integrity fault id st :
  referential_integrity st = true →
  referential_integrity (snd (serve (RestaurantByID.delete fault id) st)) = true.
Proof.
  intros H. destruct (find_restaurant st id) as [r|] eqn:Hr.
  - pose proof (delete_found_run st id r fault Hr) as Hdel.
    destruct fault; rewrite (serve_run _ _ _ _ Hdel); simpl; [done|].
    by apply referential_integrity_deleted.
  - destruct (in_int64 id) eqn:Hin.
    + destruct (not_found_run st id fault Hin Hr) as [_ Hdel].
      by rewrite (serve_run _ _ _ _ Hdel).
    + destruct (overflow_run (new_session st) id fault Hin) as [_ Hdel].
      by rewrite (serve_run _ _ _ _ Hdel).
Qed.

(** ** The handlers on the sample store *)

Example get_restaurant_1 :
  fst (serve (RestaurantByID.get 1) sample_store) =
  inr (make_response
         (Json (JObj [("id"%string, JInt 1);
                      ("name"%string, JStr "Karen's Pizza Shack");
                      ("address"%string, JStr "12 Hill St");
                      ("pizzas"%string,
                       JArr [JObj [("id"%string, JInt 1);
                                   ("name"%string, JStr "Emma");
                                   ("ingredients"%string, JStr "Dough, Tomato Sauce, Cheese");
                                   ("price"%string, JInt 5)];
                             JObj [("id"%string, JInt 2);
                                   ("name"%string, JStr "Geri");
                                   ("ingredients"%string,
                                    JStr "Dough, Tomato Sauce, Cheese, Pepperoni");
                                   ("price"%string, JInt 9)]])]))
         200).
Proof. reflexivity. Qed.

Example delete_restaurant_1 :
  serve (RestaurantByID.delete None 1) sample_store =
  (inr (make_response (Text "") 204),
   mkStore [Restaurant.mk 2 "Sanjay's Pizza" None]
           (pizzas sample_store)
           [RestaurantPizza.mk (Some 2) 7 2 1]).
Proof. reflexivity. Qed.

Example post_price_30 :
  serve (RestaurantPizzas.post "Price must be between 1 and 30" None
           (ReqObject (sample_body (Some 30) (Some 1) (Some 2)))) sample_store =
  (inr (make_response
          (Json (JObj [("id"%string, JInt 4);
                       ("price"%string, JInt 30);
                       ("restaurant_id"%string, JInt 2);
                       ("pizza_id"%string, JInt 1);
                       ("restaurant"%string,
                        JObj [("id"%string, JInt 2);
                              ("name"%string, JStr "Sanjay's Pizza");
                              ("address"%string, JNull)]);
                       ("pizza"%string,
                        JObj [("id"%string, JInt 1);
                              ("name"%string, JStr "Emma");
                              ("ingredients"%string, JStr "Dough, Tomato Sauce, Cheese")])]))
          201),
   mkStore (restaurants sample_store) (pizzas sample_store)
           (restaurant_pizzas sample_store ++ [RestaurantPizza.mk (Some 4) 30 2 1])).
Proof. reflexivity. Qed.

Example post_commit_fails :
  serve (RestaurantPizzas.post "Price must be between 1 and 30"
           (Some (OtherException "database is locked"))
           (ReqObject (sample_body (Some 30) (Some 1) (Some 2)))) sample_store =
  (inr (make_response
          (Json (JObj [("error"%string,
                        JStr "An unexpected server error occurred: database is locked")]))
          500),
   sample_store).
Proof. reflexivity. Qed.

(** * Further properties of the handlers *)

(** ** Reading handlers *)

Lemma pizza_entry_run rp s :
  RestaurantByID.pizza_entry rp s =
  (match find_pizza (db s) (RestaurantPizza.pizza_id rp) with
   | None => inl (AttributeError "'NoneType' object has no attribute 'id'")
   | Some p =>
       inr (JObj [("id"%string, JInt (Pizza.id p));
                  ("name"%string, JStr (Pizza.name p));
                  ("ingredients"%string, JStr (Pizza.ingredients p));
                  ("price"%string, JInt (RestaurantPizza.price rp))])
   end, s).
Proof.
  unfold RestaurantByID.pizza_entry, bind, RestaurantPizza_pizza.
  by destruct (find_pizza (db s) _).
Qed.

(** The loop over the associations only reads: it hands the session back. *)
Lemma for_each_pizza_entry_state rps s :
  snd (for_each RestaurantByID.pizza_entry rps s) = s.
Proof.
  induction rps as [|rp rps IH]; [done|].
  simpl. unfold bind at 1. rewrite pizza_entry_run.
  destruct (find_pizza (db s) _); [|done].
  unfold bind at 1.
  destruct (for_each RestaurantByID.pizza_entry rps s) as [[e|ys] s'] eqn:Hrun;
    simpl in IH; by subst.
Qed.

(** What the loop returns depends on the pizzas table only. *)
Lemma for_each_pizza_entry_ext rps s1 s2 :
  pizzas (db s1) = pizzas (db s2) →
  fst (for_each RestaurantByID.pizza_entry rps s1) =
  fst (for_each RestaurantByID.pizza_entry rps s2).
Proof.
  intros Hp. induction rps as [|rp rps IH]; [done|].
  simpl. unfold bind at 1 3. rewrite !pizza_entry_run.
  replace (find_pizza (db s1) (RestaurantPizza.pizza_id rp))
    with (find_pizza (db s2) (RestaurantPizza.pizza_id rp))
    by (unfold find_pizza; by rewrite Hp).
  destruct (find_pizza (db s2) _); [|done].
  unfold bind.
  pose proof (for_each_pizza_entry_state rps s1) as H1.
  pose proof (for_each_pizza_entry_state rps s2) as H2.
  destruct (for_each RestaurantByID.pizza_entry rps s1) as [[e1|ys1] s1'],
    (for_each RestaurantByID.pizza_entry rps s2) as [[e2|ys2] s2'];
    simpl in *; by simplify_eq.
Qed.

Lemma for_each_pizza_entry_raises rps s :
  Exists (λ rp, find_pizza (db s) (RestaurantPizza.pizza_id rp) = None) rps →
  for_each RestaurantByID.pizza_entry rps s =
    (inl (AttributeError "'NoneType' object has no attribute 'id'"), s).
Proof.
  induction rps as [|rp rps IH]; intros Hex; [by apply Exists_nil in Hex|].
  simpl. unfold bind at 1. rewrite pizza_entry_run.
  destruct (find_pizza (db s) (RestaurantPizza.pizza_id rp)) as [p|] eqn:Hp; [|done].
  apply Exists_cons in Hex as [Hex|Hex]; [congruence|].
  unfold bind at 1. by rewrite (IH Hex).
Qed.

Lemma for_each_pizza_entry_app l1 l2 s ys1 ys2 :
  for_each RestaurantByID.pizza_entry l1 s = (inr ys1, s) →
  for_each RestaurantByID.pizza_entry l2 s = (inr ys2, s) →
  for_each RestaurantByID.pizza_entry (l1 ++ l2) s = (inr (ys1 ++ ys2), s).
Proof.
  revert ys1. induction l1 as [|rp l1 IH]; intros ys1 H1 H2.
  - simpl in H1. unfold ret in H1. by simplify_eq.
  - simpl in *. unfold bind at 1 in H1. unfold bind at 1.
    rewrite pizza_entry_run in *.
    destruct (find_pizza (db s) _); [|done].
    unfold bind at 1 in H1. unfold bind at 1.
    pose proof (for_each_pizza_entry_state l1 s) as Hs.
    destruct (for_each RestaurantByID.pizza_entry l1 s) as [[e|zs] s'];
      simpl in Hs; subst; [done|].
    unfold ret in H1. simplify_eq. by rewrite (IH zs eq_refl H2).
Qed.

(** The handler of GET /restaurants/<id> by what it looks up. *)
Lemma get_run id s :
  RestaurantByID.get id s =
  if in_int64 id then
    match find_restaurant (db s) id with
    | None => (inr (make_error_response "Restaurant not found" 404), s)
    | Some r =>
        match fst (for_each RestaurantByID.pizza_entry (owned (db s) (Restaurant.id r)) s) with
        | inl e => (inl e, s)
        | inr ys =>
            (inr (make_response
                    (jsonify (RestaurantByID.set_pizzas (Restaurant.to_dict r) ys)) 200), s)
        end
    end
  else (inl (OverflowError int_too_large), s).
Proof.
  unfold RestaurantByID.get, bind, Restaurant_query_get, Restaurant_restaurant_pizzas.
  destruct (in_int64 id); [|done].
  destruct (find_restaurant (db s) id) as [r|]; [|done].
  pose proof (for_each_pizza_entry_state (owned (db s) (Restaurant.id r)) s) as Hs.
  destruct (for_each RestaurantByID.pizza_entry _ s) as [[e|ys] s']; simpl in *; by subst.
Qed.

(** The same on an id that resolves to a restaurant. *)
Lemma get_run_found id s r :
  find_restaurant (db s) id = Some r →
  RestaurantByID.get id s =
  match fst (for_each RestaurantByID.pizza_entry (owned (db s) id) s) with
  | inl e => (inl e, s)
  | inr ys =>
      (inr (make_response
              (jsonify (RestaurantByID.set_pizzas (Restaurant.to_dict r) ys)) 200), s)
  end.
Proof.
  intros Hr. rewrite get_run, (find_restaurant_in_range _ _ (mk_is_Some _ _ Hr)), Hr.
  by rewrite (find_restaurant_id _ _ _ Hr).
Qed.

Lemma for_each_pizza_entry_found rps st s :
  pizzas (db s) = pizzas st →
  Forall (λ rp, is_Some (find_pizza st (RestaurantPizza.pizza_id rp))) rps →
  ∃ ys, for_each RestaurantByID.pizza_entry rps s = (inr ys, s) ∧
        fst (for_each RestaurantByID.pizza_entry rps (new_session st)) = inr ys.
Proof.
  intros Hp Hall.
  destruct (for_each_pizza_entry rps (new_session st) Hall) as (ys & Hys & _).
  exists ys. rewrite Hys. split; [|done].
  pose proof (for_each_pizza_entry_state rps s) as Hs.
  pose proof (for_each_pizza_entry_ext rps s (new_session st) Hp) as He.
  rewrite Hys in He.
  destruct (for_each RestaurantByID.pizza_entry rps s) as [r s']; simpl in *. by subst.
Qed.

Lemma owned_integrity st i :
  referential_integrity st = true →
  Forall (λ rp, is_Some (find_pizza st (RestaurantPizza.pizza_id rp))) (owned st i).
Proof.
  intros Hri. apply Forall_forall. intros rp Hin.
  apply (referential_integrity_pizza st rp Hri).
  unfold owned in Hin. by apply list_elem_of_filter in Hin as [_ Hin].
Qed.

Lemma get_state id s : snd (RestaurantByID.get id s) = s.
Proof. rewrite get_run. by repeat case_match. Qed.

(** X1: GET /restaurants/<id> never writes: whatever the id and whatever
    session it runs on (changes pending or not), and whether it answers 200,
    answers 404 or raises, it hands back the session it was given; served on
    a store it leaves the store as it was. *)
Theorem get_by_id_read_only id :
  (∀ s, snd (RestaurantByID.get id s) = s) ∧
  (∀ st, snd (serve (RestaurantByID.get id) st) = st).
Proof.
  split; [apply get_state|].
  intros st. unfold serve. pose proof (get_state id (new_session st)) as H.
  destruct (RestaurantByID.get id (new_session st)) as [r s']. simpl in *. by subst.
Qed.

(** X2: on an id that resolves to a restaurant, GET /restaurants/<id> raises
    [AttributeError] ('NoneType' object has no attribute 'id') exactly when
    one of the restaurant's associations has a pizza_id that resolves to no
    pizza; otherwise it answers 200. *)
Theorem get_by_id_raises_iff_dangling st id r :
  find_restaurant st id = Some r →
  (fst (serve (RestaurantByID.get id) st) =
     inl (AttributeError "'NoneType' object has no attribute 'id'") ↔
   Exists (λ rp, find_pizza st (RestaurantPizza.pizza_id rp) = None) (owned st id)) ∧
  (¬ Exists (λ rp, find_pizza st (RestaurantPizza.pizza_id rp) = None) (owned st id) →
   ∃ resp, fst (serve (RestaurantByID.get id) st) = inr resp ∧ status_code resp = 200).
Proof.
  intros Hr.
  unfold serve. rewrite (get_run_found id (new_session st) r Hr).
  change (db (new_session st)) with st.
  destruct (Forall_Exists_dec
              (λ rp, is_Some (find_pizza st (RestaurantPizza.pizza_id rp)))
              (λ rp, find_pizza st (RestaurantPizza.pizza_id rp) = None)
              (λ rp, match find_pizza st (RestaurantPizza.pizza_id rp) as o
                       return {is_Some o} + {o = None} with
                     | Some p => left (ex_intro _ p eq_refl)
                     | None => right eq_refl
                     end)
              (owned st id)) as [Hall|Hex].
  - destruct (for_each_pizza_entry (owned st id) (new_session st) Hall) as (ys & Hys & _).
    rewrite Hys. simpl. split.
    + split; [done|]. intros Hex. exfalso.
      rewrite Forall_forall in Hall. apply Exists_exists in Hex as (rp & Hin & Hnone).
      destruct (Hall rp Hin) as [p Hp]. congruence.
    + intros _. eauto.
  - rewrite (for_each_pizza_entry_raises (owned st id) (new_session st) Hex). simpl.
    split; [done|]. intros Hno. by destruct Hno.
Qed.

Lemma get_by_id_raises_iff_dangling_witness :
  fst (serve (RestaurantByID.get 1) dangling_store) =
    inl (AttributeError "'NoneType' object has no attribute 'id'") ∧
  ∃ resp, fst (serve (RestaurantByID.get 2) dangling_store) = inr resp ∧
          status_code resp = 200.
Proof.
  split.
  - apply (get_by_id_raises_iff_dangling dangling_store 1
             (Restaurant.mk 1 "Karen's Pizza Shack" (Some "12 Hill St")) eq_refl).
    change (owned dangling_store 1)
      with [RestaurantPizza.mk (Some 1) 5 1 1; RestaurantPizza.mk (Some 3) 9 1 2;
            RestaurantPizza.mk (Some 4) 12 1 9].
    do 2 apply Exists_cons_tl. apply Exists_cons_hd. reflexivity.
  - apply (get_by_id_raises_iff_dangling dangling_store 2
             (Restaurant.mk 2 "Sanjay's Pizza" None) eq_refl).
    change (owned dangling_store 2) with [RestaurantPizza.mk (Some 2) 7 2 1].
    intros H. apply Exists_cons in H as [H|H]; [discriminate H|].
    by apply Exists_nil in H.
Defined.

(** ** The body of POST /restaurant_pizzas *)

Lemma post_object_ext price_error fault d1 d2 s :
  dict_get d1 "price" = dict_get d2 "price" →
  dict_get d1 "pizza_id" = dict_get d2 "pizza_id" →
  dict_get d1 "restaurant_id" = dict_get d2 "restaurant_id" →
  RestaurantPizzas.post price_error fault (ReqObject d1) s =
  RestaurantPizzas.post price_error fault (ReqObject d2) s.
Proof. intros H1 H2 H3. by rewrite !post_object, H1, H2, H3. Qed.

(** X3: the handler reads three keys only: adding, changing or removing any
    other key of the JSON object changes neither the answer nor the
    session. *)
Theorem post_ignores_other_keys price_error fault d k v s :
  k ≠ "price"%string → k ≠ "pizza_id"%string → k ≠ "restaurant_id"%string →
  RestaurantPizzas.post price_error fault (ReqObject (<[k := v]> d)) s =
    RestaurantPizzas.post price_error fault (ReqObject d) s ∧
  RestaurantPizzas.post price_error fault (ReqObject (delete k d)) s =
    RestaurantPizzas.post price_error fault (ReqObject d) s.
Proof.
  intros H1 H2 H3. unfold dict_get.
  split; apply post_object_ext; unfold dict_get;
    by rewrite ?lookup_insert_ne, ?lookup_delete_ne.
Qed.

Lemma post_ignores_other_keys_witness :
  RestaurantPizzas.post "Price must be between 1 and 30" None
    (ReqObject (<["note"%string := Some 3]> (sample_body (Some 10) (Some 1) (Some 2))))
    (new_session sample_store) =
  RestaurantPizzas.post "Price must be between 1 and 30" None
    (ReqObject (sample_body (Some 10) (Some 1) (Some 2))) (new_session sample_store).
Proof.
  apply (post_ignores_other_keys "Price must be between 1 and 30" None
           (sample_body (Some 10) (Some 1) (Some 2)) "note" (Some 3)
           (new_session sample_store)); done.
Defined.

(** X4: a key whose value is null is read like a key that is not there: the
    handler answers the same on the object with [k] set to null and on the
    object without [k], for every key [k]. *)
Theorem post_null_is_absent price_error fault d k s :
  RestaurantPizzas.post price_error fault (ReqObject (<[k := None]> d)) s =
  RestaurantPizzas.post price_error fault (ReqObject (delete k d)) s.
Proof.
  assert (∀ key, dict_get (<[k := None]> d) key = dict_get (delete k d) key) as H.
  { intros key. unfold dict_get. destruct (decide (k = key)) as [->|Hne].
    - by rewrite lookup_insert_eq, lookup_delete_eq.
    - by rewrite lookup_insert_ne, lookup_delete_ne. }
  by apply post_object_ext.
Qed.

(** ** What POST /restaurant_pizzas answers *)




(** X7: whatever the body and whatever the commit does, POST
    /restaurant_pizzas leaves the restaurants and the pizzas as they were,
    and the associations either as they were or with exactly one row added
    at the end: a row with a price within 1..30 whose restaurant_id and
    pizza_id resolve. *)
Theorem post_frame price_error fault data st :
  let st' := snd (serve (RestaurantPizzas.post price_error fault data) st) in
  restaurants st' = restaurants st ∧
  pizzas st' = pizzas st ∧
  (restaurant_pizzas st' = restaurant_pizzas st ∨
   ∃ row,
     restaurant_pizzas st' = restaurant_pizzas st ++ [row] ∧
     1 ≤ RestaurantPizza.price row ≤ 30 ∧
     is_Some (find_restaurant st (RestaurantPizza.restaurant_id row)) ∧
     is_Some (find_pizza st (RestaurantPizza.pizza_id row))).
Proof.
  intros st'. subst st'.
  destruct (RestaurantPizzas.post price_error fault data (new_session st)) as [r s'] eqn:Hrun.
  rewrite (serve_run _ _ _ _ Hrun). simpl.
  destruct (post_run_cases _ _ _ _ _ _ Hrun)
    as [->|(price & pizza_id & restaurant_id & Hr & Hp & Hrange & -> & _)].
  - auto.
  - split; [done|]. split; [done|]. right.
    exists (created_row st price pizza_id restaurant_id).
    split; [done|]. split; [exact Hrange|]. split; [exact Hr | exact Hp].
Qed.

(** ** One request after another *)

Lemma post_created price_error d st price pizza_id restaurant_id :
  dict_get d "price" = Some price →
  dict_get d "pizza_id" = Some pizza_id →
  dict_get d "restaurant_id" = Some restaurant_id →
  is_Some (find_restaurant st restaurant_id) →
  is_Some (find_pizza st pizza_id) →
  1 ≤ price ≤ 30 →
  snd (serve (RestaurantPizzas.post price_error None (ReqObject d)) st) =
  created_store st price pizza_id restaurant_id.
Proof.
  intros Hp Hpi Hri Hr Hpz Hrange.
  unfold serve. rewrite (post_found _ _ _ _ _ _ _ Hp Hpi Hri Hr Hpz), create_run.
  by rewrite bool_decide_eq_true_2.
Qed.

Lemma owned_created st price pizza_id restaurant_id :
  owned (created_store st price pizza_id restaurant_id) restaurant_id =
  owned st restaurant_id ++ [created_row st price pizza_id restaurant_id].
Proof.
  unfold owned, created_store; simpl.
  rewrite filter_app. f_equal. by rewrite filter_cons_True.
Qed.

Lemma delete_created st price pizza_id restaurant_id :
  delete_restaurant restaurant_id (created_store st price pizza_id restaurant_id) =
  delete_restaurant restaurant_id st.
Proof.
  unfold delete_restaurant, created_store; simpl. f_equal.
  rewrite filter_app, filter_cons_False; [by rewrite app_nil_r|].
  simpl. by intros H.
Qed.

(** X8: after a POST /restaurant_pizzas that succeeds for a restaurant and a
    pizza, GET /restaurants/<id> for that restaurant answers what it answered
    before with one more entry at the end of [pizzas]: the pizza's id, name
    and ingredients with the posted price. *)
Theorem post_then_get price_error d st price pizza_id restaurant_id r p :
  referential_integrity st = true →
  dict_get d "price" = Some price →
  dict_get d "pizza_id" = Some pizza_id →
  dict_get d "restaurant_id" = Some restaurant_id →
  find_restaurant st restaurant_id = Some r →
  find_pizza st pizza_id = Some p →
  1 ≤ price ≤ 30 →
  ∃ pizzas_data,
    fst (serve (RestaurantByID.get restaurant_id) st) =
      inr (make_response
             (Json (JObj [("id"%string, JInt restaurant_id);
                          ("name"%string, JStr (Restaurant.name r));
                          ("address"%string, from_option JStr JNull (Restaurant.address r));
                          ("pizzas"%string, JArr pizzas_data)]))
             200) ∧
    fst (serve (RestaurantByID.get restaurant_id)
           (snd (serve (RestaurantPizzas.post price_error None (ReqObject d)) st))) =
      inr (make_response
             (Json (JObj [("id"%string, JInt restaurant_id);
                          ("name"%string, JStr (Restaurant.name r));
                          ("address"%string, from_option JStr JNull (Restaurant.address r));
                          ("pizzas"%string,
                           JArr (pizzas_data ++
                                 [JObj [("id"%string, JInt pizza_id);
                                        ("name"%string, JStr (Pizza.name p));
                                        ("ingredients"%string, JStr (Pizza.ingredients p));
                                        ("price"%string, JInt price)]]))]))
             200).
Proof.
  intros Hri Hp Hpi Hrid Hr Hpz Hrange.
  pose proof (find_restaurant_id _ _ _ Hr) as Hid.
  pose proof (find_pizza_id _ _ _ Hpz) as Hpid.
  rewrite (post_created price_error d st price pizza_id restaurant_id) by eauto.
  set (st1 := created_store st price pizza_id restaurant_id).
  destruct (for_each_pizza_entry_found (owned st restaurant_id) st (new_session st)
              eq_refl (owned_integrity st restaurant_id Hri)) as (ys & Hys & _).
  destruct (for_each_pizza_entry_found (owned st restaurant_id) st (new_session st1)
              eq_refl (owned_integrity st restaurant_id Hri)) as (ys1 & Hys1 & Hys1').
  rewrite Hys in Hys1'. injection Hys1' as <-.
  exists ys. split.
  - unfold serve. rewrite (get_run_found restaurant_id (new_session st) r Hr).
    change (db (new_session st)) with st.
    rewrite Hys. simpl. by rewrite Hid.
  - unfold serve. rewrite (get_run_found restaurant_id (new_session st1) r Hr).
    change (db (new_session st1)) with st1.
    unfold st1 at 1. rewrite owned_created.
    rewrite (for_each_pizza_entry_app _ _ _ ys
               [JObj [("id"%string, JInt pizza_id);
                      ("name"%string, JStr (Pizza.name p));
                      ("ingredients"%string, JStr (Pizza.ingredients p));
                      ("price"%string, JInt price)]] Hys1).
    + simpl. by rewrite Hid.
    + simpl. unfold bind at 1. rewrite pizza_entry_run.
      change (find_pizza (db (new_session st1)) _) with (find_pizza st pizza_id).
      rewrite Hpz, Hpid. reflexivity.
Qed.

Lemma post_then_get_witness :
  ∃ pizzas_data,
    fst (serve (RestaurantByID.get 2) sample_store) =
      inr (make_response
             (Json (JObj [("id"%string, JInt 2);
                          ("name"%string, JStr "Sanjay's Pizza");
                          ("address"%string, JNull);
                          ("pizzas"%string, JArr pizzas_data)]))
             200) ∧
    fst (serve (RestaurantByID.get 2)
           (snd (serve (RestaurantPizzas.post "Price must be between 1 and 30" None
                          (ReqObject (sample_body (Some 10) (Some 2) (Some 2))))
                   sample_store))) =
      inr (make_response
             (Json (JObj [("id"%string, JInt 2);
                          ("name"%string, JStr "Sanjay's Pizza");
                          ("address"%string, JNull);
                          ("pizzas"%string,
                           JArr (pizzas_data ++
                                 [JObj [("id"%string, JInt 2);
                                        ("name"%string, JStr "Geri");
                                        ("ingredients"%string,
                                         JStr "Dough, Tomato Sauce, Cheese, Pepperoni");
                                        ("price"%string, JInt 10)]]))]))
             200).
Proof.
  apply (post_then_get "Price must be between 1 and 30"
           (sample_body (Some 10) (Some 2) (Some 2)) sample_store 10 2 2
           (Restaurant.mk 2 "Sanjay's Pizza" None)
           (Pizza.mk 2 "Geri" "Dough, Tomato Sauce, Cheese, Pepperoni"));
    try reflexivity.
  lia.
Defined.

(** X9: a successful DELETE /restaurants/<i> does not change what GET
    /restaurants/<j> answers for any other id j. *)
Theorem delete_keeps_other_details st i j r :
  find_restaurant st i = Some r →
  j ≠ i →
  fst (serve (RestaurantByID.get j) (snd (serve (RestaurantByID.delete None i) st))) =
  fst (serve (RestaurantByID.get j) st).
Proof.
  intros Hr Hne.
  rewrite (serve_run _ _ _ _ (delete_found_run st i r None Hr)).
  cbn [snd]. change (db (new_session (delete_restaurant i st))) with (delete_restaurant i st).
  unfold serve. rewrite !get_run.
  change (db (new_session (delete_restaurant i st))) with (delete_restaurant i st).
  change (db (new_session st)) with st.
  destruct (in_int64 j); [|done].
  rewrite find_restaurant_delete, decide_False by done.
  destruct (find_restaurant st j) as [rj|] eqn:Hrj; [|done].
  rewrite (find_restaurant_id _ _ _ Hrj), owned_delete_other by done.
  rewrite (for_each_pizza_entry_ext (owned st j)
             (new_session (delete_restaurant i st)) (new_session st) eq_refl).
  by destruct (fst (for_each RestaurantByID.pizza_entry (owned st j) (new_session st))).
Qed.

Lemma delete_keeps_other_details_witness :
  fst (serve (RestaurantByID.get 2)
         (snd (serve (RestaurantByID.delete None 1) sample_store))) =
  fst (serve (RestaurantByID.get 2) sample_store).
Proof.
  apply (delete_keeps_other_details sample_store 1 2
           (Restaurant.mk 1 "Karen's Pizza Shack" (Some "12 Hill St")));
    [reflexivity | lia].
Defined.

(** X10: once DELETE /restaurants/<i> has succeeded, the id is gone for every
    handler: another DELETE answers 404 whatever the commit would do, a POST
    /restaurant_pizzas with the three fields present, restaurant_id = i and a
    pizza_id within 64 bits answers 404 {"error": "Restaurant not found"},
    both leaving the store as it is, and GET /restaurants lists the other
    restaurants in their order. *)
Theorem after_delete_not_found price_error st i r :
  find_restaurant st i = Some r →
  let st' := snd (serve (RestaurantByID.delete None i) st) in
  (∀ fault,
     serve (RestaurantByID.delete fault i) st' =
       (inr (make_response
               (Json (JObj [("error"%string, JStr "Restaurant not found")])) 404), st')) ∧
  (∀ fault d price pizza_id,
     dict_get d "price" = Some price →
     dict_get d "pizza_id" = Some pizza_id →
     dict_get d "restaurant_id" = Some i →
     in_int64 pizza_id = true →
     serve (RestaurantPizzas.post price_error fault (ReqObject d)) st' =
       (inr (make_response
               (Json (JObj [("error"%string, JStr "Restaurant not found")])) 404), st')) ∧
  fst (serve Restaurants.get st') =
    inr (make_response
           (Json (JArr (map Restaurant.to_dict
                          (filter (λ x, Restaurant.id x ≠ i) (restaurants st)))))
           200).
Proof.
  intros Hr st'. subst st'.
  rewrite (serve_run _ _ _ _ (delete_found_run st i r None Hr)).
  cbn [snd]. change (db (new_session (delete_restaurant i st))) with (delete_restaurant i st).
  assert (find_restaurant (delete_restaurant i st) i = None) as Hgone.
  { by rewrite find_restaurant_delete, decide_True. }
  pose proof (find_restaurant_in_range st i (mk_is_Some _ _ Hr)) as Hin.
  split; [|split].
  - intros fault. destruct (not_found_run _ i fault Hin Hgone) as [_ Hdel].
    by rewrite (serve_run _ _ _ _ Hdel).
  - intros fault d price pizza_id Hp Hpi Hri Hpin.
    unfold serve. rewrite (post_in_range _ _ _ _ _ _ _ Hp Hpi Hri Hin Hpin).
    change (db (new_session (delete_restaurant i st))) with (delete_restaurant i st).
    by rewrite Hgone.
  - reflexivity.
Qed.

Lemma after_delete_not_found_witness :
  serve (RestaurantByID.delete None 1)
    (snd (serve (RestaurantByID.delete None 1) sample_store)) =
    (inr (make_response (Json (JObj [("error"%string, JStr "Restaurant not found")])) 404),
     snd (serve (RestaurantByID.delete None 1) sample_store)).
Proof.
  apply (after_delete_not_found "Price must be between 1 and 30" sample_store 1
           (Restaurant.mk 1 "Karen's Pizza Shack" (Some "12 Hill St")) eq_refl).
Defined.

(** X11: deleting a restaurant after a successful POST /restaurant_pizzas for
    it removes the new association with the others: the DELETE answers 204
    and leaves the store a DELETE without the POST would have left. *)
Theorem post_then_delete price_error d st price pizza_id restaurant_id :
  dict_get d "price" = Some price →
  dict_get d "pizza_id" = Some pizza_id →
  dict_get d "restaurant_id" = Some restaurant_id →
  is_Some (find_restaurant st restaurant_id) →
  is_Some (find_pizza st pizza_id) →
  1 ≤ price ≤ 30 →
  serve (RestaurantByID.delete None restaurant_id)
    (snd (serve (RestaurantPizzas.post price_error None (ReqObject d)) st)) =
    (inr (make_response (Text "") 204), delete_restaurant restaurant_id st) ∧
  serve (RestaurantByID.delete None restaurant_id) st =
    (inr (make_response (Text "") 204), delete_restaurant restaurant_id st).
Proof.
  intros Hp Hpi Hri [r Hr] Hpz Hrange.
  rewrite (post_created price_error d st price pizza_id restaurant_id) by eauto.
  split.
  - rewrite (serve_run _ _ _ _
               (delete_found_run (created_store st price pizza_id restaurant_id)
                  restaurant_id r None Hr)).
    simpl. by rewrite delete_created.
  - by rewrite (serve_run _ _ _ _ (delete_found_run st restaurant_id r None Hr)).
Qed.

Lemma post_then_delete_witness :
  serve (RestaurantByID.delete None 2)
    (snd (serve (RestaurantPizzas.post "Price must be between 1 and 30" None
                   (ReqObject (sample_body (Some 10) (Some 2) (Some 2)))) sample_store)) =
    (inr (make_response (Text "") 204), delete_restaurant 2 sample_store).
Proof.
  apply (post_then_delete "Price must be between 1 and 30"
           (sample_body (Some 10) (Some 2) (Some 2)) sample_store 10 2 2);
    try reflexivity.
  - vm_compute. eauto.
  - vm_compute. eauto.
  - lia.
Defined.

(** ** Any sequence of requests *)

(** What one request can do to the store: nothing, delete an existing
    restaurant with its associations, or append one valid association. *)
Lemma dispatch_cases price_error fault req st :
  let st' := snd (serve (dispatch price_error fault req) st) in
  st' = st ∨
  (∃ i, is_Some (find_restaurant st i) ∧ st' = delete_restaurant i st) ∨
  (∃ price pizza_id restaurant_id,
     is_Some (find_restaurant st restaurant_id) ∧
     is_Some (find_pizza st pizza_id) ∧
     1 ≤ price ≤ 30 ∧
     st' = created_store st price pizza_id restaurant_id).
Proof.
  intros st'. subst st'. destruct req as [| |id|id| |data]; simpl.
  - by left.
  - by left.
  - left. unfold serve. pose proof (get_state id (new_session st)) as H.
    destruct (RestaurantByID.get id (new_session st)) as [r s']. simpl in *. by subst.
  - destruct (find_restaurant st id) as [r|] eqn:Hr.
    + pose proof (delete_found_run st id r fault Hr) as Hdel.
      destruct fault; rewrite (serve_run _ _ _ _ Hdel); simpl; [by left|].
      right. left. exists id. by rewrite Hr.
    + destruct (in_int64 id) eqn:Hin.
      * destruct (not_found_run st id fault Hin Hr) as [_ Hdel].
        rewrite (serve_run _ _ _ _ Hdel). by left.
      * destruct (overflow_run (new_session st) id fault Hin) as [_ Hdel].
        rewrite (serve_run _ _ _ _ Hdel). by left.
  - by left.
  - destruct (RestaurantPizzas.post price_error fault data (new_session st))
      as [r s'] eqn:Hrun.
    rewrite (serve_run _ _ _ _ Hrun). simpl.
    destruct (post_run_cases _ _ _ _ _ _ Hrun)
      as [->|(price & pizza_id & restaurant_id & Hr & Hp & Hrange & -> & _)];
      [by left|].
    right. right. exists price, pizza_id, restaurant_id. eauto.
Qed.

Lemma prices_in_range_Forall st :
  prices_in_range st = true ↔
  Forall (λ rp, 1 ≤ RestaurantPizza.price rp ≤ 30) (restaurant_pizzas st).
Proof.
  unfold prices_in_range.
  rewrite <- Is_true_true, forallb_True. apply Forall_proper; [|done].
  intros rp. by rewrite bool_decide_spec.
Qed.

(** An invariant of the three store transitions holds after any sequence
    of requests. *)
Lemma serve_all_invariant (I : Store → Prop) price_error :
  (∀ st i, I st → is_Some (find_restaurant st i) → I (delete_restaurant i st)) →
  (∀ st price pizza_id restaurant_id,
     I st → is_Some (find_restaurant st restaurant_id) →
     is_Some (find_pizza st pizza_id) → 1 ≤ price ≤ 30 →
     I (created_store st price pizza_id restaurant_id)) →
  ∀ reqs st, I st → I (serve_all price_error st reqs).
Proof.
  intros Hdel Hadd reqs. induction reqs as [|[req fault] reqs IH]; intros st HI; [done|].
  simpl. apply IH.
  destruct (dispatch_cases price_error fault req st)
    as [->|[(i & Hi & ->)|(price & pizza_id & restaurant_id & Hr & Hp & Hrange & ->)]];
    eauto.
Qed.

(** X12: through any sequence of requests to the API, with any failures of
    the store at the commits, the pizzas table stays as it is and no
    restaurant is added: the restaurants left are a sublist of those at the
    start. *)
Theorem serve_all_pizzas_fixed price_error st reqs :
  pizzas (serve_all price_error st reqs) = pizzas st ∧
  restaurants (serve_all price_error st reqs) `sublist_of` restaurants st.
Proof.
  apply (serve_all_invariant
           (λ st', pizzas st' = pizzas st ∧ restaurants st' `sublist_of` restaurants st)).
  - intros st' i [Hp Hs] _. split; [done|].
    simpl. etrans; [apply sublist_filter; apply _|exact Hs].
  - intros st' price pizza_id restaurant_id [Hp Hs] _ _ _. by split.
  - by split.
Qed.

(** X13: referential integrity is an invariant of the API: when every
    association points at an existing restaurant and an existing pizza, it
    still does after any sequence of requests, and then GET /restaurants/<id>
    answers 200 or 404 for every id within 64 bits; for an id beyond 64 bits
    it raises the [OverflowError] of the lookup. *)
Theorem serve_all_referential_integrity price_error st reqs :
  referential_integrity st = true →
  referential_integrity (serve_all price_error st reqs) = true ∧
  ∀ id,
    (in_int64 id = true →
     ∃ resp,
       fst (serve (RestaurantByID.get id) (serve_all price_error st reqs)) = inr resp ∧
       (status_code resp = 200 ∨ status_code resp = 404)) ∧
    (in_int64 id = false →
     fst (serve (RestaurantByID.get id) (serve_all price_error st reqs)) =
       inl (OverflowError "Python int too large to convert to SQLite INTEGER")).
Proof.
  intros Hri.
  assert (referential_integrity (serve_all price_error st reqs) = true) as Hri'.
  { apply (serve_all_invariant (λ st', referential_integrity st' = true)); [| |done].
    - intros st' i H _. by apply referential_integrity_deleted.
    - intros st' price pizza_id restaurant_id H Hr Hp _.
      by apply referential_integrity_created. }
  split; [exact Hri'|]. intros id.
  set (st' := serve_all price_error st reqs) in *.
  split; intros Hin.
  - destruct (find_restaurant st' id) as [r|] eqn:Hr.
    + destruct (get_found_run st' id r Hri' Hr) as (ys & Hrun & _).
      rewrite (serve_run _ _ _ _ Hrun). eexists. split; [done|]. by left.
    + destruct (not_found_run st' id None Hin Hr) as [Hget _].
      rewrite (serve_run _ _ _ _ Hget). eexists. split; [done|]. by right.
  - destruct (overflow_run (new_session st') id None Hin) as [Hget _].
    by rewrite (serve_run _ _ _ _ Hget).
Qed.

Lemma serve_all_referential_integrity_witness :
  referential_integrity
    (serve_all "Price must be between 1 and 30" sample_store
       [(POST_restaurant_pizzas (ReqObject (sample_body (Some 10) (Some 2) (Some 2))), None);
        (DELETE_restaurant_by_id 1, None);
        (GET_restaurant_by_id 2, None);
        (POST_restaurant_pizzas (ReqObject (sample_body (Some 10) (Some 1) (Some 1))), None)]) =
  true.
Proof.
  apply (serve_all_referential_integrity "Price must be between 1 and 30" sample_store).
  reflexivity.
Defined.

(** X14: the price range is an invariant of the API: when every association
    of the store has a price within 1..30, so has every association after
    any sequence of requests. *)
Theorem serve_all_prices_in_range price_error st reqs :
  prices_in_range st = true →
  prices_in_range (serve_all price_error st reqs) = true.
Proof.
  apply (serve_all_invariant (λ st', prices_in_range st' = true)).
  - intros st' i H _. rewrite prices_in_range_Forall in *. simpl.
    rewrite Forall_forall in H. apply Forall_forall. intros rp Hin.
    apply list_elem_of_filter in Hin as [_ Hin]. by apply H.
  - intros st' price pizza_id restaurant_id H _ _ Hrange.
    rewrite prices_in_range_Forall in *. simpl.
    apply Forall_app. split; [done|]. by apply Forall_singleton.
Qed.

Lemma serve_all_prices_in_range_witness :
  prices_in_range
    (serve_all "Price must be between 1 and 30" sample_store
       [(POST_restaurant_pizzas (ReqObject (sample_body (Some 31) (Some 2) (Some 2))), None);
        (POST_restaurant_pizzas (ReqObject (sample_body (Some 30) (Some 2) (Some 2))), None);
        (DELETE_restaurant_by_id 1, Some (OtherException "database is locked"))]) =
  true.
Proof.
  apply (serve_all_prices_in_range "Price must be between 1 and 30" sample_store).
  reflexivity.
Defined.

(** ** Requests that never reach the commit *)

(** X15: only a request that passes every check reaches the commit: when
    POST /restaurant_pizzas does not succeed with the store working, its
    answer and its effect are the same whatever the store would do at a
    commit. *)
Theorem post_rejected_before_commit price_error fault data st :
  is_success (fst (RestaurantPizzas.post price_error None data (new_session st))) = false →
  RestaurantPizzas.post price_error fault data (new_session st) =
  RestaurantPizzas.post price_error None data (new_session st).
Proof.
  destruct data as [d| | | | |]; try done.
  rewrite !post_object. change (db (new_session st)) with st.
  destruct (dict_get d "price") as [price|], (dict_get d "pizza_id") as [pizza_id|],
    (dict_get d "restaurant_id") as [restaurant_id|]; try done.
  destruct (in_int64 restaurant_id && in_int64 pizza_id); [|done].
  destruct (find_restaurant st restaurant_id), (find_pizza st pizza_id); try done.
  rewrite !create_run. by destruct (bool_decide (1 ≤ price ≤ 30)).
Qed.

Lemma post_rejected_before_commit_witness :
  RestaurantPizzas.post "Price must be between 1 and 30"
    (Some (OtherException "database is locked"))
    (ReqObject (sample_body (Some 31) (Some 2) (Some 2))) (new_session sample_store) =
  RestaurantPizzas.post "Price must be between 1 and 30" None
    (ReqObject (sample_body (Some 31) (Some 2) (Some 2))) (new_session sample_store).
Proof.
  apply (post_rejected_before_commit "Price must be between 1 and 30"
           (Some (OtherException "database is locked"))
           (ReqObject (sample_body (Some 31) (Some 2) (Some 2))) sample_store).
  reflexivity.
Defined.
